(** * django-criterion: the statistical comparison core

    A shallow embedding of [django_criterion/core]: [result_type.py],
    [queries.py], [timing.py] and the comparison and persistence functions of
    [__init__.py].

    Python exceptions are results of type [result]; Python dictionaries are
    association lists in insertion order; the numbers of the program are kept
    behind the interface [Arith], which has two instances:

    - [binary64], IEEE 754 double precision with round to nearest even, the
      arithmetic of CPython's [float] ([PrimFloat]); every definition
      evaluates on it, so the program can be run on concrete inputs.  The
      one operation CPython takes from the C library, [pow] for [x ** 2],
      is a parameter: [binary64_libm pow2] is the arithmetic of a platform
      whose [pow(x, 2.0)] is [pow2 x], and [binary64] is the one whose [pow]
      is the correctly rounded square;
    - [exact], the real numbers, the arithmetic the statistics of the
      program are derived in.

    What holds of the control flow is proved for every arithmetic; what
    depends on the order of the numbers is proved on [binary64] from the
    specification of its operations; what depends on the algebra of the
    numbers is proved on [exact], and checked on [binary64] by evaluation.

    The numeric fields of the dataclasses are declared [float] and are
    numbers of the arithmetic; the Python integers of the program (the
    sample size, the degrees of freedom of the tables) are [Z] and are
    converted where Python converts them.
*)

From Stdlib Require Import ZArith List String Ascii Bool Lia.
From Stdlib Require Import DecimalString.
From Stdlib Require Import Floats.
From Stdlib Require Import Reals Lra Psatz.
Import ListNotations.

Set Implicit Arguments.
Set Warnings "-register-all,-inexact-float".
Local Open Scope Z_scope.
Local Open Scope string_scope.

(** ** Exceptions *)

Inductive exn : Type :=
| ZeroDivisionError
| KeyError
| IndexError
| ValueError
| TypeError
| AttributeError
| OverflowError
| Exception (msg : string)
| SystemExit (code : Z).

Inductive result (T : Type) : Type :=
| Ok (v : T)
| Raise (e : exn).

Arguments Ok {T} v.
Arguments Raise {T} e.

Definition bind {T U : Type} (r : result T) (k : T -> result U) : result U :=
  match r with
  | Ok v => k v
  | Raise e => Raise e
  end.

Notation "x <- r ;; k" := (bind r (fun x => k))
  (at level 61, r at next level, right associativity).

(** [for x in l], collecting one value per element, stopping at the first
    exception. *)
Fixpoint mapM {T U : Type} (f : T -> result U) (l : list T) : result (list U) :=
  match l with
  | [] => Ok []
  | x :: rest => y <- f x ;; ys <- mapM f rest ;; Ok (y :: ys)
  end.

(** [for x in l], threading the state the loop body updates. *)
Fixpoint foldM {S T : Type} (f : S -> T -> result S) (l : list T) (s : S)
  : result S :=
  match l with
  | [] => Ok s
  | x :: rest => s' <- f s x ;; foldM f rest s'
  end.

(** ** Dictionaries and tuples *)

Section Containers.
Variables K V : Type.
Variable keq : K -> K -> bool.

(** [d.get(k)]: the value of the first item whose key equals [k]. *)
Fixpoint dict_find (d : list (K * V)) (k : K) : option V :=
  match d with
  | [] => None
  | (k', v) :: rest => if keq k' k then Some v else dict_find rest k
  end.

(** [k in d] *)
Definition dict_mem (d : list (K * V)) (k : K) : bool :=
  match dict_find d k with Some _ => true | None => false end.

(** [d[k]] *)
Definition dict_get (d : list (K * V)) (k : K) : result V :=
  match dict_find d k with Some v => Ok v | None => Raise KeyError end.

(** [d[k] = v]: the value of an existing key is replaced in place, a new
    key is appended. *)
Fixpoint dict_set (d : list (K * V)) (k : K) (v : V) : list (K * V) :=
  match d with
  | [] => [(k, v)]
  | (k', v') :: rest =>
      if keq k' k then (k', v) :: rest else (k', v') :: dict_set rest k v
  end.

Definition dict_keys (d : list (K * V)) : list K := map fst d.

(** [t[i]] for [0 <= i] *)
Definition item (t : list V) (i : nat) : result V :=
  match nth_error t i with Some v => Ok v | None => Raise IndexError end.

(** [t[-1]] *)
Definition item_last (t : list V) : result V :=
  match t with
  | [] => Raise IndexError
  | _ => item t (List.length t - 1)
  end.
End Containers.

(** [t.index(x)] *)
Fixpoint tuple_index {T : Type} (teq : T -> T -> bool) (t : list T) (x : T)
  : result nat :=
  match t with
  | [] => Raise ValueError
  | y :: rest => if teq y x then Ok O else i <- tuple_index teq rest x ;; Ok (S i)
  end.

(** ** result_type.py *)

Inductive ResultType : Type :=
| REGRESSION
| IMPROVEMENT
| MIXED
| UNCHANGED
| NO_PREVIOUS_DATA.

Definition ResultType_eqb (x y : ResultType) : bool :=
  match x, y with
  | REGRESSION, REGRESSION
  | IMPROVEMENT, IMPROVEMENT
  | MIXED, MIXED
  | UNCHANGED, UNCHANGED
  | NO_PREVIOUS_DATA, NO_PREVIOUS_DATA => true
  | _, _ => false
  end.

Definition PRECEDENCE : list ResultType :=
  [MIXED; REGRESSION; IMPROVEMENT; UNCHANGED; NO_PREVIOUS_DATA].

Definition merge (self other : ResultType) : result ResultType :=
  if (ResultType_eqb self REGRESSION && ResultType_eqb other IMPROVEMENT)
     || (ResultType_eqb self IMPROVEMENT && ResultType_eqb other REGRESSION)
  then Ok MIXED
  else
    self_precendence <- tuple_index ResultType_eqb PRECEDENCE self ;;
    other_precendence <- tuple_index ResultType_eqb PRECEDENCE other ;;
    Ok (if (self_precendence <=? other_precendence)%nat then self else other).

Definition PRETTY : list (ResultType * string) :=
  [ (REGRESSION, "Regression");
    (IMPROVEMENT, "Improvement");
    (MIXED, "Mixed");
    (UNCHANGED, "Unchanged");
    (NO_PREVIOUS_DATA, "No previous data") ].

Definition pretty_print (self : ResultType) : result string :=
  dict_get ResultType_eqb PRETTY self.

(** ** The arithmetic of the program *)

Class Arith : Type := {
  num : Type;
  nadd : num -> num -> num;
  nsub : num -> num -> num;
  nmul : num -> num -> num;
  ndiv : num -> num -> num;    (* the quotient when the divisor is not zero *)
  nsqrt : num -> num;          (* the root when the argument is not negative *)
  npow2 : num -> num;          (* [x ** 2] when it does not raise *)
  nneg : num -> num;
  neqb : num -> num -> bool;   (* [x == y] *)
  nltb : num -> num -> bool;   (* [x < y] *)
  nleb : num -> num -> bool;   (* [x <= y] *)
  nfinite : num -> bool;       (* [math.isfinite(x)] *)
  of_int : Z -> num            (* [float(i)] *)
}.

Declare Scope num_scope.
Delimit Scope num_scope with num.
Bind Scope num_scope with num.
Infix "+" := nadd : num_scope.
Infix "-" := nsub : num_scope.
Infix "*" := nmul : num_scope.
Infix "/" := ndiv : num_scope.
Notation "- x" := (nneg x) : num_scope.
Infix "==?" := neqb (at level 70, no associativity) : num_scope.
Infix "<?" := nltb : num_scope.
Infix "<=?" := nleb : num_scope.

(** *** binary64 *)

(** [float(z)]: the double nearest to [z], ties to even.  (CPython raises
    [OverflowError] for an integer beyond the doubles, where this is [inf];
    no integer of the program is that large: the sample size is looked up in
    the F table before it is converted.) *)
Definition Z2float (z : Z) : float :=
  SF2Prim (binary_normalize prec emax z 0 false).

(** CPython computes [x ** 2] on floats with the C library's
    [pow(x, 2.0)], which need not be the correctly rounded square: what it
    returns is the platform's.  [binary64_libm pow2] is the arithmetic of
    the program on a platform whose [pow(x, 2.0)] is [pow2 x]. *)
Definition binary64_libm (pow2 : float -> float) : Arith := {|
  num := float;
  nadd := PrimFloat.add;
  nsub := PrimFloat.sub;
  nmul := PrimFloat.mul;
  ndiv := PrimFloat.div;
  nsqrt := PrimFloat.sqrt;
  npow2 := pow2;
  nneg := PrimFloat.opp;
  neqb := PrimFloat.eqb;
  nltb := PrimFloat.ltb;
  nleb := PrimFloat.leb;
  nfinite := PrimFloat.is_finite;
  of_int := Z2float
|}.

(** The instance the evaluations run on: a C library whose [pow(x, 2.0)]
    is the correctly rounded square. *)
#[export] Instance binary64 : Arith :=
  binary64_libm (fun x => PrimFloat.mul x x).

(** *** exact arithmetic *)

Definition Reqb (x y : R) : bool := if Req_dec_T x y then true else false.
Definition Rltb (x y : R) : bool := if Rlt_dec x y then true else false.
Definition Rleb (x y : R) : bool := if Rle_dec x y then true else false.

#[export] Instance exact : Arith := {|
  num := R;
  nadd := Rplus;
  nsub := Rminus;
  nmul := Rmult;
  ndiv := Rdiv;
  nsqrt := R_sqrt.sqrt;
  npow2 := fun x => Rmult x x;
  nneg := Ropp;
  neqb := Reqb;
  nltb := Rltb;
  nleb := Rleb;
  nfinite := fun _ => true;
  of_int := IZR
|}.

Section Core.
Context {A : Arith}.
Local Open Scope num_scope.

(** A decimal literal: [dec 15977 3] is [15.977].  On [binary64] the
    quotient of the two integers is rounded once, to the double nearest to
    the decimal, which is the value CPython reads the literal as. *)
Definition dec (m : Z) (k : nat) : num :=
  of_int m / of_int (10 ^ Z.of_nat k).

(** [x / y] *)
Definition py_div (x y : num) : result num :=
  if y ==? of_int 0 then Raise ZeroDivisionError else Ok (x / y).

(** [math.sqrt(x)] *)
Definition math_sqrt (x : num) : result num :=
  if x <? of_int 0 then Raise ValueError else Ok (nsqrt x).

(** [x ** 2]: the arithmetic's second power; [float.__pow__] raises
    [OverflowError] when the power of a finite number is not finite. *)
Definition py_square (x : num) : result num :=
  let y := npow2 x in
  if nfinite x && negb (nfinite y) then Raise OverflowError else Ok y.

(** *** timing.py *)

Record TimingDiff : Type := {
  average_diff : num;
  negligible : bool
}.

Definition TimingDiff_result_type (self : TimingDiff) : ResultType :=
  if negligible self then UNCHANGED
  else if of_int 0 <? average_diff self then REGRESSION else IMPROVEMENT.

Record Timing : Type := {
  average : num;
  stdev : num;
  variance : num;
  diff : option TimingDiff
}.

Definition Timing_result_type (self : Timing) : ResultType :=
  match diff self with
  | None => NO_PREVIOUS_DATA
  | Some d => TimingDiff_result_type d
  end.

Definition F_TABLE_ALPHA : list num := [dec 1 2; dec 25 3; dec 5 2; dec 1 1].

Definition F_TABLE : list (Z * list num) :=
  [ (4, [dec 15977 3; dec 96045 4; dec 63882 4; dec 410725 5]);
    (5, [dec 10967 3; dec 71464 4; dec 50503 4; dec 345298 5]);
    (6, [dec 8466 3; dec 58198 4; dec 42839 4; dec 305455 5]);
    (7, [dec 6993 3; dec 49949 4; dec 37870 4; dec 278493 5]);
    (8, [dec 6029 3; dec 44333 4; dec 34381 4; dec 258935 5]);
    (9, [dec 5351 3; dec 40260 4; dec 31789 4; dec 244034 5]);
    (10, [dec 4849 3; dec 37168 4; dec 29782 4; dec 232260 5]);
    (12, [dec 4155 3; dec 32773 4; dec 26866 4; dec 214744 5]);
    (15, [dec 3522 3; dec 28621 4; dec 24034 4; dec 197222 5]);
    (20, [dec 2938 3; dec 24645 4; dec 21242 4; dec 179384 5]);
    (24, [dec 2659 3; dec 22693 4; dec 19838 4; dec 170185 5]);
    (30, [dec 2386 3; dec 2074 3; dec 18409 4; dec 160648 5]);
    (40, [dec 2114 3; dec 18750 4; dec 16928 4; dec 150562 5]);
    (60, [dec 1836 3; dec 1667 3; dec 15343 4; dec 139520 5]);
    (120, [dec 1533 3; dec 1433 3; dec 13519 4; dec 126457 5]) ].

Definition linear_regression (p1 p2 : num * num) (x : num) : result num :=
  a <- py_div (snd p2 - snd p1) (fst p2 - fst p1) ;;
  let b := snd p1 - a * fst p1 in
  Ok (a * x + b).

(** The [for] loop of [fcdf] over the indices [idx]. *)
Fixpoint fcdf_loop (table : list num) (f : num) (idx : list nat) : result num :=
  match idx with
  | [] => Raise (Exception "Couldn't find an alpha value for F.")
  | i :: rest =>
      let down := i in
      let up := (i + 1)%nat in
      td <- item table down ;;
      if f <=? td then
        tu <- item table up ;;
        if tu <=? f then
          ad <- item F_TABLE_ALPHA down ;;
          au <- item F_TABLE_ALPHA up ;;
          linear_regression (td, ad) (tu, au) f
        else fcdf_loop table f rest
      else fcdf_loop table f rest
  end.

Definition fcdf (f : num) (freedom : Z) : result num :=
  table <- dict_get Z.eqb F_TABLE freedom ;;
  t0 <- item table 0 ;;
  if t0 <? f then Ok (dec 1 3)
  else
    tl <- item_last table ;;
    if f <? tl then Ok (dec 2 1)
    else fcdf_loop table f (seq 0 (List.length table - 1)).

Definition INV_T_TABLE_FREEDOM : list Z := [8; 18; 25; 30; 60; 120].

Definition INV_T_TABLE : list (num * list num) :=
  [ (dec 5 3, [dec 3355 3; dec 2878 3; dec 2787 3; dec 2750 3; dec 2660 3; dec 2617 3]);
    (dec 1 2, [dec 2896 3; dec 2552 3; dec 2485 3; dec 2457 3; dec 2390 3; dec 2358 3]);
    (dec 25 3, [dec 2306 3; dec 2101 3; dec 2060 3; dec 2042 3; dec 2000 3; dec 1980 3]);
    (dec 5 2, [dec 1860 3; dec 1734 3; dec 1708 3; dec 1697 3; dec 1671 3; dec 1658 3]);
    (dec 1 1, [dec 1397 3; dec 1330 3; dec 1316 3; dec 1310 3; dec 1296 3; dec 1289 3]) ].

(** The [for] loop of [invt] over the indices [idx].  The tabulated degrees
    of freedom are Python integers; they are compared with, and subtracted
    and multiplied as, their [float] values, which are exact. *)
Fixpoint invt_loop (table : list num) (freedom : num) (idx : list nat)
  : result num :=
  match idx with
  | [] => Raise (Exception "Couldn't find a t-value for freedom.")
  | i :: rest =>
      let down := i in
      let up := (i + 1)%nat in
      fd <- item INV_T_TABLE_FREEDOM down ;;
      if of_int fd <=? freedom then
        fu <- item INV_T_TABLE_FREEDOM up ;;
        if freedom <=? of_int fu then
          td <- item table down ;;
          tu <- item table up ;;
          linear_regression (of_int fd, td) (of_int fu, tu) freedom
        else invt_loop table freedom rest
      else invt_loop table freedom rest
  end.

Definition invt (a : num) (freedom : num) : result num :=
  table <- dict_get neqb INV_T_TABLE a ;;
  invt_loop table freedom (seq 0 (List.length table - 1)).

Definition calc_timing_diff (new old : Timing) (n : Z) (a : num)
  : result TimingDiff :=
  f <- py_div (variance old) (variance new) ;;
  ap <- (if of_int 1 <=? f then
           p <- fcdf f (n - 1) ;; Ok (of_int 2 * p)
         else
           g <- py_div (of_int 1) f ;;
           p <- fcdf g (n - 1) ;; Ok (of_int 2 * p)) ;;
  tt <- (if dec 2 1 <=? ap then
           s <- py_div (of_int (n - 1) * variance old
                        + of_int (n - 1) * variance new)
                       (of_int (2 * n - 2)) ;;
           sp <- math_sqrt s ;;
           q <- py_div (of_int 2) (of_int n) ;;
           r <- math_sqrt q ;;
           t <- py_div (average old - average new) (sp * r) ;;
           t_value <- invt a (of_int (n * 2 - 2)) ;;
           Ok (t, t_value)
         else
           xo <- py_div (variance old) (of_int n) ;;
           xn <- py_div (variance new) (of_int n) ;;
           s <- py_square (xo + xn) ;;
           yo <- py_div (variance old) (of_int n) ;;
           so <- py_square yo ;;
           do <- py_div so (of_int (n - 1)) ;;
           yn <- py_div (variance new) (of_int n) ;;
           sn <- py_square yn ;;
           dn <- py_div sn (of_int (n - 1)) ;;
           v <- py_div s (do + dn) ;;
           zo <- py_div (variance old) (of_int n) ;;
           zn <- py_div (variance new) (of_int n) ;;
           r <- math_sqrt (zo + zn) ;;
           t <- py_div (average old - average new) r ;;
           ah <- py_div a (of_int 2) ;;
           t_value <- invt ah v ;;
           Ok (t, t_value)) ;;
  let t := fst tt in
  let t_value := snd tt in
  let reject := (t_value <=? t) || (t <=? - t_value) in
  Ok {| average_diff := average new - average old;
        negligible := negb reject |}.

(** *** queries.py *)

Record Queries : Type := {
  value : num;
  captured_queries : list (list (string * string));
  queries_diff : option num          (* the field [diff] *)
}.

Definition Queries_result_type (self : Queries) : ResultType :=
  match queries_diff self with
  | None => NO_PREVIOUS_DATA
  | Some d =>
      if d ==? of_int 0 then UNCHANGED
      else if of_int 0 <? d then REGRESSION
      else IMPROVEMENT
  end.

(** *** __init__.py *)

Record BenchmarkResult : Type := {
  queries : Queries;
  timing : Timing
}.

Definition BenchmarkResult_result_type (self : BenchmarkResult)
  : result ResultType :=
  merge (Queries_result_type (queries self))
        (Timing_result_type (timing self)).

(** The nested mapping case name -> benchmark name -> result. *)
Definition Results : Type := list (string * list (string * BenchmarkResult)).

(** **** Persistence

    The object handed to [json.dump] and the object [json.load] returns are
    JSON values; the text in the file between the two is the [json]
    module's, and is taken to give back the value that was written. *)

Inductive json : Type :=
| JNull
| JBool (b : bool)
| JNum (x : num)
| JStr (s : string)
| JArr (l : list json)
| JObj (items : list (string * json)).

(** [d[k]] on a loaded value *)
Definition getitem (d : json) (k : string) : result json :=
  match d with
  | JObj items => dict_get String.eqb items k
  | _ => Raise TypeError
  end.

(** [d.items()] on a loaded value *)
Definition json_items (d : json) : result (list (string * json)) :=
  match d with
  | JObj items => Ok items
  | _ => Raise AttributeError
  end.

(** The dataclasses declare their numeric fields as [float], and
    [from_dict] checks nothing: CPython stores in the field whatever value
    the document holds.  The records of the embedding hold numbers only, so
    a document with a value of another JSON type in a numeric field is
    outside the embedding: [as_float] fails on it, where the program goes
    on with the value until an operation rejects it.  Nothing is stated
    here about such documents; the documents [write_output] writes have
    numbers in these fields. *)
Definition as_float (j : json) : result num :=
  match j with
  | JNum x => Ok x
  | _ => Raise TypeError
  end.

Definition Timing_from_dict (d : json) : result Timing :=
  a <- (j <- getitem d "average" ;; as_float j) ;;
  s <- (j <- getitem d "stdev" ;; as_float j) ;;
  v <- (j <- getitem d "variance" ;; as_float j) ;;
  Ok {| average := a; stdev := s; variance := v; diff := None |}.

Definition Queries_from_dict (d : json) : result Queries :=
  v <- (j <- getitem d "value" ;; as_float j) ;;
  Ok {| value := v; queries_diff := None; captured_queries := [] |}.

Definition BenchmarkResult_from_dict (d : json) : result BenchmarkResult :=
  q <- (j <- getitem d "queries" ;; Queries_from_dict j) ;;
  t <- (j <- getitem d "timing" ;; Timing_from_dict j) ;;
  Ok {| queries := q; timing := t |}.

(** [dataclasses.asdict] *)
Definition TimingDiff_asdict (d : TimingDiff) : json :=
  JObj [ ("average_diff", JNum (average_diff d));
         ("negligible", JBool (negligible d)) ].

Definition Timing_asdict (t : Timing) : json :=
  JObj [ ("average", JNum (average t));
         ("stdev", JNum (stdev t));
         ("variance", JNum (variance t));
         ("diff", match diff t with
                  | None => JNull
                  | Some d => TimingDiff_asdict d
                  end) ].

Definition Queries_asdict (q : Queries) : json :=
  JObj [ ("value", JNum (value q));
         ("captured_queries",
          JArr (map (fun d => JObj (map (fun kv => (fst kv, JStr (snd kv))) d))
                    (captured_queries q)));
         ("diff", match queries_diff q with
                  | None => JNull
                  | Some x => JNum x
                  end) ].

Definition BenchmarkResult_asdict (r : BenchmarkResult) : json :=
  JObj [ ("queries", Queries_asdict (queries r));
         ("timing", Timing_asdict (timing r)) ].

(** [try: ... except Exception as error: print(...); sys.exit(1)] *)
Definition or_exit {T : Type} (r : result T) : result T :=
  match r with
  | Ok v => Ok v
  | Raise _ => Raise (SystemExit 1)
  end.

(** [load_results(f)], on the value [json.load(f)] returns. *)
Definition load_results (f : json) : result Results :=
  or_exit
    (results <- json_items f ;;
     mapM (fun cb : string * json =>
             benchmarks <- json_items (snd cb) ;;
             loaded <- mapM (fun bb : string * json =>
                               r <- BenchmarkResult_from_dict (snd bb) ;;
                               Ok (fst bb, r))
                            benchmarks ;;
             Ok (fst cb, loaded))
          results).

(** [write_output(f, data)]: the value [json.dump] writes to [f]. *)
Definition write_output (data : Results) : result json :=
  or_exit
    (Ok (JObj (map (fun cb : string * list (string * BenchmarkResult) =>
                      (fst cb,
                       JObj (map (fun bb : string * BenchmarkResult =>
                                    (fst bb, BenchmarkResult_asdict (snd bb)))
                                 (snd cb))))
                   data))).

(** **** Comparison *)

(** The body of the inner [for] loop of [compare_results]: [inner] is
    [comparison[case]]. *)
Definition compare_bench (benchmarks_b : list (string * BenchmarkResult))
  (n : Z) (inner : list (string * BenchmarkResult))
  (item : string * BenchmarkResult)
  : result (list (string * BenchmarkResult)) :=
  let bench_name := fst item in
  let result := snd item in
  if negb (dict_mem String.eqb benchmarks_b bench_name) then
    Ok (dict_set String.eqb inner bench_name result)
  else
    result_b <- dict_get String.eqb benchmarks_b bench_name ;;
    let queries' :=
      {| value := value (queries result);
         queries_diff :=
           Some (value (queries result) - value (queries result_b));
         captured_queries := captured_queries (queries result) |} in
    timing_diff <- calc_timing_diff (timing result) (timing result_b) n
                                    (dec 5 2) ;;
    let timing' :=
      {| average := average (timing result);
         stdev := stdev (timing result);
         variance := variance (timing result);
         diff := Some timing_diff |} in
    Ok (dict_set String.eqb inner bench_name
                 {| queries := queries'; timing := timing' |}).

(** The body of the outer [for] loop of [compare_results]. *)
Definition compare_case (b : Results) (n : Z) (comparison : Results)
  (item : string * list (string * BenchmarkResult)) : result Results :=
  let case := fst item in
  let benchmarks := snd item in
  if negb (dict_mem String.eqb b case) then
    Ok (dict_set String.eqb comparison case benchmarks)
  else
    benchmarks_b <- dict_get String.eqb b case ;;
    inner <- foldM (compare_bench benchmarks_b n) benchmarks [] ;;
    Ok (dict_set String.eqb comparison case inner).

Definition compare_results (a b : Results) (n : Z) : result Results :=
  foldM (compare_case b n) a [].

End Core.

(** *** __init__.py, the names of the cases *)

(** [s.rfind(c)] for a character [c]: the index of its last occurrence in
    [s], or -1. *)
Fixpoint rfind (c : ascii) (s : string) : Z :=
  match s with
  | EmptyString => (-1)%Z
  | String a rest =>
      let r := rfind c rest in
      if (0 <=? r)%Z then (r + 1)%Z else if Ascii.eqb a c then 0%Z else (-1)%Z
  end.

(** [s[k:]] for [0 <= k]. *)
Fixpoint slice_from (k : nat) (s : string) : string :=
  match k, s with
  | O, _ => s
  | S k', EmptyString => EmptyString
  | S k', String _ rest => slice_from k' rest
  end.

(** [c.__module__] and [c.__name__] of a class. *)
Record PyClass : Type := {
  py_module : string;
  py_name : string
}.

Definition qualified_name (c : PyClass) : string :=
  (py_module c ++ "." ++ py_name c)%string.

Definition class_name (x : string) : string :=
  slice_from (Z.to_nat (rfind "." x + 1)%Z) x.

(** *** __init__.py, the warm-up *)

Section Warmup.
Context {A : Arith}.
Local Open Scope num_scope.


End Warmup.

(** ** Printing

    What a function prints, line by line, and how it ends: with a value or
    with an exception, after which nothing more is printed. *)

Definition io (T : Type) : Type := (list string * result T)%type.

Definition io_bind {T U : Type} (m : io T) (k : T -> io U) : io U :=
  match snd m with
  | Ok v => (fst m ++ fst (k v), snd (k v))%list
  | Raise e => (fst m, Raise e)
  end.

Notation "x <~ m ;; k" := (io_bind m (fun x => k))
  (at level 61, m at next level, right associativity).

(** [print(s)] *)
Definition print (s : string) : io unit := ([s], Ok tt).

(** The value of an expression that prints nothing. *)
Definition io_eval {T : Type} (r : result T) : io T := ([], r).

(** [for x in l: f(x)] *)
Fixpoint io_for {T : Type} (f : T -> io unit) (l : list T) : io unit :=
  match l with
  | [] => ([], Ok tt)
  | x :: rest => _ <~ f x ;; io_for f rest
  end.

(** [" " * n] *)
Fixpoint spaces (n : nat) : string :=
  match n with
  | O => ""
  | S n' => String " " (spaces n')
  end.

(** [s.ljust(width)]; the length of a text is counted in bytes, which for
    ASCII names is Python's count. *)
Definition ljust (s : string) (width : nat) : string :=
  s ++ spaces (width - String.length s).

(** [str(n)] for a natural number. *)
Definition str_of_nat (n : nat) : string :=
  NilEmpty.string_of_uint (Nat.to_uint n).

(** [enumerate(l)] *)
Fixpoint enumerate_from {T : Type} (i : nat) (l : list T) : list (nat * T) :=
  match l with
  | [] => []
  | x :: rest => (i, x) :: enumerate_from (S i) rest
  end.

Section Reports.
Context {A : Arith}.
Local Open Scope num_scope.

(** [format(x, spec)] for a float: the text an f-string puts for
    [{x:spec}]. *)
Variable format : num -> string -> string.

(** timing.py, [TimingDiff.pretty] *)
Definition TimingDiff_pretty (self : TimingDiff) : string :=
  format (average_diff self) "+.4f".

(** queries.py, [Queries.pretty_diff] *)
Definition Queries_pretty_diff (self : Queries) : string :=
  match queries_diff self with
  | None => "new"
  | Some d => if d ==? of_int 0 then "no change" else format d "+.1f"
  end.

(** The body of the loop over the captured queries. *)
Definition print_query (iq : nat * list (string * string)) : io unit :=
  let i := fst iq in
  let q := snd iq in
  _ <~ print (spaces 6 ++ "- Query " ++ str_of_nat (i + 1) ++ ":") ;;
  sql <~ io_eval (dict_get String.eqb q "sql") ;;
  _ <~ print (spaces 8 ++ "> SQL: " ++ sql) ;;
  time <~ io_eval (dict_get String.eqb q "time") ;;
  print (spaces 8 ++ "> Timing: " ++ time).

(** The line of the number of queries: the conditional expression binds
    weaker than [+], so that the label and the value are printed only when
    there is no diff, and the closing parenthesis only when there is one. *)
Definition queries_line (queries : Queries) (queries_result : string)
  : string :=
  match queries_diff queries with
  | None =>
      spaces 4 ++ "~ " ++ ljust "Number of queries" 28 ++ ": "
      ++ format (value queries) ".1f" ++ " (" ++ queries_result
  | Some _ => (Queries_pretty_diff queries ++ ", " ++ queries_result) ++ ")"
  end.

(** The line of the timing; an instance of [TimingDiff] is true. *)
Definition timing_line (timing : Timing) (timing_result : string) : string :=
  match diff timing with
  | None =>
      spaces 4 ++ "~ " ++ ljust "Timing (seconds)" 28 ++ ": "
      ++ format (average timing) ".4f" ++ "±" ++ format (stdev timing) ".4f"
      ++ " (" ++ timing_result
  | Some d => TimingDiff_pretty d ++ ", " ++ timing_result ++ ")"
  end.

(** The body of the loop over the benchmarks of a case. *)
Definition print_bench (show_queries : bool)
  (item : string * BenchmarkResult) : io unit :=
  let bench := fst item in
  let result := snd item in
  result_type <~ io_eval (v <- BenchmarkResult_result_type result ;;
                       pretty_print v) ;;
  _ <~ print ("  > " ++ ljust bench 30 ++ ": " ++ result_type) ;;
  let queries := queries result in
  queries_result <~ io_eval (pretty_print (Queries_result_type queries)) ;;
  _ <~ print (queries_line queries queries_result) ;;
  _ <~ (if show_queries
        then io_for print_query (enumerate_from 0 (captured_queries queries))
        else ([], Ok tt)) ;;
  let timing := timing result in
  timing_result <~ io_eval (pretty_print (Timing_result_type timing)) ;;
  print (timing_line timing timing_result).

(** The body of the loop over the cases. *)
Definition print_case (show_queries : bool)
  (item : string * list (string * BenchmarkResult)) : io unit :=
  let case := fst item in
  let results := snd item in
  _ <~ print ("- " ++ class_name case) ;;
  io_for (print_bench show_queries) results.

Definition print_results (results : Results) (show_queries : bool) : io unit :=
  _ <~ print "Results:" ;;
  io_for (print_case show_queries) results.

End Reports.

(** ** Proof devices for the loops *)

(** A Python dictionary has no two equal keys. *)
Fixpoint dict_ok {K V : Type} (keq : K -> K -> bool) (d : list (K * V)) : bool :=
  match d with
  | [] => true
  | (k, _) :: rest =>
      forallb (fun kv => negb (keq k (fst kv))) rest && dict_ok keq rest
  end.

Section ComparisonValues.
Context {A : Arith}.

(** The nested mapping is a dictionary of dictionaries. *)
Definition results_ok (a : Results) : bool :=
  dict_ok String.eqb a && forallb (fun cb => dict_ok String.eqb (snd cb)) a.

(** What [load_results] rebuilds of a result: the aggregates, without the
    diffs and without the captured queries. *)
Definition persisted (r : BenchmarkResult) : BenchmarkResult :=
  {| queries := {| value := value (queries r);
                   captured_queries := [];
                   queries_diff := None |};
     timing := {| average := average (timing r);
                  stdev := stdev (timing r);
                  variance := variance (timing r);
                  diff := None |} |}.

(** The value the inner loop body of [compare_results] stores under
    [bench_name]. *)
Definition compared_bench (benchmarks_b : list (string * BenchmarkResult))
  (n : Z) (item : string * BenchmarkResult) : result BenchmarkResult :=
  match dict_find String.eqb benchmarks_b (fst item) with
  | None => Ok (snd item)
  | Some result_b =>
      timing_diff <- calc_timing_diff (timing (snd item)) (timing result_b) n
                                      (dec 5 2) ;;
      Ok {| queries :=
              {| value := value (queries (snd item));
                 queries_diff :=
                   Some (nsub (value (queries (snd item)))
                              (value (queries result_b)));
                 captured_queries := captured_queries (queries (snd item)) |};
            timing :=
              {| average := average (timing (snd item));
                 stdev := stdev (timing (snd item));
                 variance := variance (timing (snd item));
                 diff := Some timing_diff |} |}
  end.

(** The value the outer loop body of [compare_results] stores under
    [case]. *)
Definition compared_case (b : Results) (n : Z)
  (item : string * list (string * BenchmarkResult))
  : result (list (string * BenchmarkResult)) :=
  match dict_find String.eqb b (fst item) with
  | None => Ok (snd item)
  | Some benchmarks_b =>
      mapM (fun bb => r <- compared_bench benchmarks_b n bb ;; Ok (fst bb, r))
           (snd item)
  end.
End ComparisonValues.

(** [c in s] for a character. *)
Fixpoint has_char (c : ascii) (s : string) : bool :=
  match s with
  | EmptyString => false
  | String a rest => Ascii.eqb a c || has_char c rest
  end.

(** The number of lines of a report. *)
Definition bench_lines {A : Arith} (show_queries : bool) (r : BenchmarkResult)
  : nat :=
  (3 + if show_queries then 3 * List.length (captured_queries (queries r))
       else 0)%nat.

Definition report_lines {A : Arith} (results : Results) (show_queries : bool)
  : nat :=
  (1 + list_sum
         (map (fun cb : string * list (string * BenchmarkResult) =>
                 1 + list_sum (map (fun bb => bench_lines show_queries (snd bb))
                                   (snd cb)))
              results))%nat.

(** Every captured query has the two keys that are printed. *)
Definition queries_printable {A : Arith} (results : Results) : bool :=
  forallb
    (fun cb : string * list (string * BenchmarkResult) =>
       forallb
         (fun bb : string * BenchmarkResult =>
            forallb (fun q => dict_mem String.eqb q "sql"
                              && dict_mem String.eqb q "time")
                    (captured_queries (queries (snd bb))))
         (snd cb))
    results.

(** ** Proof devices for the rounding of binary64 *)









(** ** Tables in exact arithmetic *)

(** A row of the F table in exact arithmetic: four critical values, above 1
    and decreasing. *)
Definition F_row (table : list R) : Prop :=
  exists t0 t1 t2 t3 : R,
    table = [t0; t1; t2; t3] /\ (1 < t3 < t2)%R /\ (t2 < t1 < t0)%R.



(** ** The specification's reading of the code *)

(** §3 and §4.5: the position of a verdict in the order
    MIXED > REGRESSION > IMPROVEMENT > UNCHANGED > NO_PREVIOUS_DATA. *)
Definition spec_rank (v : ResultType) : nat :=
  match v with
  | MIXED => 0
  | REGRESSION => 1
  | IMPROVEMENT => 2
  | UNCHANGED => 3
  | NO_PREVIOUS_DATA => 4
  end.

(** §4.5: the pair is exactly {REGRESSION, IMPROVEMENT}, in either order. *)
Definition spec_conflict (v1 v2 : ResultType) : bool :=
  match v1, v2 with
  | REGRESSION, IMPROVEMENT | IMPROVEMENT, REGRESSION => true
  | _, _ => false
  end.

(** §4.5: Merge(v1, v2). *)
Definition spec_merge (v1 v2 : ResultType) : ResultType :=
  if spec_conflict v1 v2 then MIXED
  else if (spec_rank v1 <=? spec_rank v2)%nat then v1 else v2.

Section Spec.
Context {A : Arith}.
Local Open Scope num_scope.







End Spec.

(** *** §4.3 in closed form

    The quantities of the comparison as expressions of the arithmetic, as
    the specification writes them: no exception is part of them. *)
Section Formulas.
Context {A : Arith}.
Local Open Scope num_scope.





End Formulas.

(** ** Sample inputs *)

Definition mk_timing {A : Arith} (avg sd var : num) : Timing :=
  {| average := avg; stdev := sd; variance := var; diff := None |}.

Definition mk_result {A : Arith} (q : num) (t : Timing) : BenchmarkResult :=
  {| queries := {| value := q; captured_queries := []; queries_diff := None |};
     timing := t |}.

(** §8, end-to-end scenario: average 1.0 s, standard deviation 0.01. *)
Definition steady : @Timing binary64 :=
  mk_timing (A := binary64) 1.0%float 0.01%float 0.0001%float.

(** §8, end-to-end scenario: average 2.0 s, low variance. *)
Definition slower : @Timing binary64 :=
  mk_timing (A := binary64) 2.0%float 0.01%float 0.0001%float.

(** A noisier run: three times the variance of [steady]. *)
Definition noisy : @Timing binary64 :=
  mk_timing (A := binary64) 1.0%float 0.0173%float 0.0003%float.

(** A run whose samples all took the same time. *)
Definition constant : @Timing binary64 :=
  mk_timing (A := binary64) 1.0%float 0.0%float 0.0%float.

(** A new run of two cases, and a baseline that has only the first case and
    only its first benchmark. *)
Definition new_run : @Results binary64 :=
  [ ("app.benchmarks.Orders",
     [ ("bench_list", mk_result (A := binary64) 3.0%float slower);
       ("bench_create", mk_result (A := binary64) 5.0%float steady) ]);
    ("app.benchmarks.Users",
     [ ("bench_login", mk_result (A := binary64) 2.0%float noisy) ]) ].

Definition baseline : @Results binary64 :=
  [ ("app.benchmarks.Orders",
     [ ("bench_list", mk_result (A := binary64) 3.0%float steady) ]) ].

(** A baseline whose only benchmark has samples of zero variance. *)
Definition constant_run : @Results binary64 :=
  [ ("app.benchmarks.Orders",
     [ ("bench_list", mk_result (A := binary64) 3.0%float constant) ]) ].

(** A compared benchmark, as [compare_results] leaves it: both diffs are
    set and the queries of the last sample are attached. *)
Definition compared_result : @BenchmarkResult binary64 :=
  {| queries := {| value := 3.0%float : @num binary64;
                   captured_queries :=
                     [ [ ("sql", "SELECT 1"); ("time", "0.001") ] ];
                   queries_diff := Some (1.0%float : @num binary64) |};
     timing := {| average := 2.0%float : @num binary64;
                  stdev := 0.01%float : @num binary64;
                  variance := 0.0001%float : @num binary64;
                  diff := Some {| average_diff := 1.0%float : @num binary64;
                                  negligible := false |} |} |}.

Definition compared_run : @Results binary64 :=
  [ ("app.benchmarks.Orders", [ ("bench_list", compared_result) ]) ].












(** The tolerance of the endpoint checks of [fcdf] on [binary64]. *)
Definition endpoint_tolerance : float := 1e-16%float.

(** [fcdf] at every tabulated critical value of the row [kr] is within
    [endpoint_tolerance] of the tabulated alpha of its column. *)
Definition row_endpoints_close (kr : Z * list float) : bool :=
  forallb
    (fun ca : float * float =>
       match fcdf (A := binary64) (fst ca) (fst kr) with
       | Ok p => (abs (p - snd ca) <=? endpoint_tolerance)%float
       | Raise _ => false
       end)
    (combine (snd kr) (F_TABLE_ALPHA (A := binary64))).

(** A row has four critical values, decreasing from alpha = 0.01 to
    alpha = 0.1. *)
Definition row_decreasing (kr : Z * list float) : bool :=
  match snd kr with
  | [t0; t1; t2; t3] => (t3 <? t2)%float && (t2 <? t1)%float && (t1 <? t0)%float
  | _ => false
  end.

(** The interpolation lines of the three brackets of a row are defined: the
    critical values of a bracket have a non-zero difference. *)
Definition row_brackets_sloped (kr : Z * list float) : bool :=
  match snd kr, F_TABLE_ALPHA (A := binary64) with
  | [t0; t1; t2; t3], [a0; a1; a2; a3] =>
      forallb
        (fun line : (float * float) * (float * float) =>
           match linear_regression (A := binary64) (fst line) (snd line)
                                   (fst (fst line)) with
           | Ok _ => true
           | Raise _ => false
           end)
        [ ((t0, a0), (t1, a1)); ((t1, a1), (t2, a2)); ((t2, a2), (t3, a3)) ]
  | _, _ => false
  end.

(** A row of the inverse-t table has six critical values, and the
    interpolation lines of its five brackets are defined. *)
Definition t_row_sloped (kr : float * list float) : bool :=
  match snd kr with
  | [t0; t1; t2; t3; t4; t5] =>
      forallb
        (fun line : (float * float) * (float * float) =>
           match linear_regression (A := binary64) (fst line) (snd line)
                                   (fst (fst line)) with
           | Ok _ => true
           | Raise _ => false
           end)
        [ ((8, t0), (18, t1)); ((18, t1), (25, t2)); ((25, t2), (30, t3));
          ((30, t3), (60, t4)); ((60, t4), (120, t5)) ]%float
  | _ => false
  end.

(** A class of benchmarks. *)
Definition orders_class : PyClass :=
  {| py_module := "app.benchmarks"; py_name := "Orders" |}.

(** What [compare_results] makes of [new_run] against [baseline] at
    n = 61. *)
Definition compared_new_run : @Results binary64 :=
  [ ("app.benchmarks.Orders",
     [ ("bench_list",
        {| queries := {| value := 3.0%float : @num binary64;
                         captured_queries := [];
                         queries_diff := Some (0.0%float : @num binary64) |};
           timing := {| average := 2.0%float : @num binary64;
                        stdev := 0.01%float : @num binary64;
                        variance := 0.0001%float : @num binary64;
                        diff := Some {| average_diff := 1.0%float : @num binary64;
                                        negligible := false |} |} |});
       ("bench_create", mk_result (A := binary64) 5.0%float steady) ]);
    ("app.benchmarks.Users",
     [ ("bench_login", mk_result (A := binary64) 2.0%float noisy) ]) ].




(** * Verification *)

Unset Implicit Arguments.
Local Open Scope list_scope.

(** ** Verdicts *)

(** C2. [merge] is the specification's Merge: MIXED for the pair
    {REGRESSION, IMPROVEMENT} in either order, and otherwise whichever of the
    two verdicts ranks first in MIXED > REGRESSION > IMPROVEMENT > UNCHANGED >
    NO_PREVIOUS_DATA; it never raises. *)
Theorem merge_spec : forall v1 v2 : ResultType,
  merge v1 v2 = Ok (spec_merge v1 v2).
Proof. intros [] []; reflexivity. Qed.

Lemma merge_idempotent : forall v : ResultType, merge v v = Ok v.
Proof. intros []; reflexivity. Qed.

Lemma merge_commutative : forall v1 v2 : ResultType, merge v1 v2 = merge v2 v1.
Proof. intros [] []; reflexivity. Qed.

(** ** binary64 *)

(** The decimal literals of the tables are the doubles CPython reads them
    as. *)
Lemma F_TABLE_binary64 :
  F_TABLE (A := binary64) =
  [ (4%Z, [15.977; 9.6045; 6.3882; 4.10725]);
    (5%Z, [10.967; 7.1464; 5.0503; 3.45298]);
    (6%Z, [8.466; 5.8198; 4.2839; 3.05455]);
    (7%Z, [6.993; 4.9949; 3.7870; 2.78493]);
    (8%Z, [6.029; 4.4333; 3.4381; 2.58935]);
    (9%Z, [5.351; 4.0260; 3.1789; 2.44034]);
    (10%Z, [4.849; 3.7168; 2.9782; 2.32260]);
    (12%Z, [4.155; 3.2773; 2.6866; 2.14744]);
    (15%Z, [3.522; 2.8621; 2.4034; 1.97222]);
    (20%Z, [2.938; 2.4645; 2.1242; 1.79384]);
    (24%Z, [2.659; 2.2693; 1.9838; 1.70185]);
    (30%Z, [2.386; 2.074; 1.8409; 1.60648]);
    (40%Z, [2.114; 1.8750; 1.6928; 1.50562]);
    (60%Z, [1.836; 1.667; 1.5343; 1.39520]);
    (120%Z, [1.533; 1.433; 1.3519; 1.26457]) ]%float.
Proof. vm_compute. reflexivity. Qed.

Lemma F_TABLE_ALPHA_binary64 :
  F_TABLE_ALPHA (A := binary64) = [0.01; 0.025; 0.05; 0.1]%float.
Proof. vm_compute. reflexivity. Qed.

Lemma INV_T_TABLE_binary64 :
  INV_T_TABLE (A := binary64) =
  [ (0.005, [3.355; 2.878; 2.787; 2.750; 2.660; 2.617]);
    (0.01, [2.896; 2.552; 2.485; 2.457; 2.390; 2.358]);
    (0.025, [2.306; 2.101; 2.060; 2.042; 2.000; 1.980]);
    (0.05, [1.860; 1.734; 1.708; 1.697; 1.671; 1.658]);
    (0.1, [1.397; 1.330; 1.316; 1.310; 1.296; 1.289]) ]%float.
Proof. vm_compute. reflexivity. Qed.

(** The order of [binary64], from the specification of the comparisons. *)
Lemma SFcompare_lt_trans : forall x y z,
  SFcompare x y = Some Lt -> SFcompare y z = Some Lt -> SFcompare x z = Some Lt.
Proof.
  intros [sx|sx| |sx mx ex] [sy|sy| |sy my ey] [sz|sz| |sz mz ez]; simpl;
    try discriminate; try (destruct sx, sy, sz; simpl; congruence).
  all: try (destruct sx, sy; try discriminate; destruct sz;
            try reflexivity; discriminate).
  change PosDef.Pos.compare_cont with Pos.compare_cont.
  rewrite !Pos.compare_cont_spec.
  destruct sx, sy, sz; try discriminate; try reflexivity;
    intros H1 H2; injection H1 as H1; injection H2 as H2; f_equal;
    destruct (Z.compare_spec ex ey), (Z.compare_spec ey ez),
             (Z.compare_spec ex ez);
    try discriminate; try reflexivity; try lia;
    destruct (Pos.compare_spec mx my), (Pos.compare_spec my mz),
             (Pos.compare_spec mx mz);
    simpl in *; try discriminate; try reflexivity; try lia.
Qed.

Lemma SFcompare_lt_irrefl : forall x, SFcompare x x <> Some Lt.
Proof.
  intros [sx|sx| |sx mx ex]; simpl; try discriminate;
    destruct sx; try discriminate;
    change PosDef.Pos.compare_cont with Pos.compare_cont;
    rewrite Z.compare_refl, Pos.compare_cont_spec, Pos.compare_refl;
    discriminate.
Qed.

Lemma ltb_chain_false : forall x y z : float,
  (x <? y)%float = true -> (y <? z)%float = true -> (z <? x)%float = false.
Proof.
  intros x y z. rewrite !ltb_spec. unfold SFltb.
  destruct (SFcompare (Prim2SF x) (Prim2SF y)) as [[]|] eqn:E1;
    try discriminate.
  destruct (SFcompare (Prim2SF y) (Prim2SF z)) as [[]|] eqn:E2;
    try discriminate.
  intros _ _.
  destruct (SFcompare (Prim2SF z) (Prim2SF x)) as [[]|] eqn:E3;
    try reflexivity.
  exfalso. apply (@SFcompare_lt_irrefl (Prim2SF x)).
  eapply SFcompare_lt_trans; [|exact E3].
  eapply SFcompare_lt_trans; eauto.
Qed.

(** [x == 0] holds of the two zeros only. *)
Lemma eqb_zero_inv : forall x : float,
  (x =? 0)%float = true -> x = 0%float \/ x = (-0)%float.
Proof.
  intros x. rewrite eqb_spec. change (Prim2SF 0) with (S754_zero false).
  unfold SFeqb. intros H.
  assert (exists s, Prim2SF x = S754_zero s) as [s Hs].
  { destruct (Prim2SF x) as [s|s| |s m e]; simpl in H; try discriminate;
      eauto; destruct s; discriminate. }
  destruct s; [right|left]; apply Prim2SF_inj; rewrite Hs; reflexivity.
Qed.

(** [0 < y] holds of the positive finite numbers and of [+inf]. *)
Lemma ltb_zero_inv : forall y : float,
  (0 <? y)%float = true ->
  Prim2SF y = S754_infinity false \/
  exists m e, Prim2SF y = S754_finite false m e.
Proof.
  intros y. rewrite ltb_spec. change (Prim2SF 0) with (S754_zero false).
  unfold SFltb.
  destruct (Prim2SF y) as [s|s| |s m e]; simpl; try discriminate;
    destruct s; try discriminate; eauto.
Qed.

Lemma pos_nonzero : forall y : float,
  (0 <? y)%float = true -> (y =? 0)%float = false.
Proof.
  intros y H. rewrite eqb_spec. change (Prim2SF 0) with (S754_zero false).
  destruct (ltb_zero_inv _ H) as [-> | (m & e & ->)]; reflexivity.
Qed.

(** A zero divided by a positive number is a zero. *)
Lemma zero_div_pos : forall x y : float,
  (x =? 0)%float = true -> (0 <? y)%float = true ->
  (x / y = 0)%float \/ (x / y = -0)%float.
Proof.
  intros x y Hx Hy.
  assert (exists s, Prim2SF (x / y) = S754_zero s) as [s Hs].
  { rewrite div_spec.
    destruct (eqb_zero_inv _ Hx) as [-> | ->];
      destruct (ltb_zero_inv _ Hy) as [-> | (m & e & ->)]; simpl; eauto. }
  destruct s; [right|left]; apply Prim2SF_inj; rewrite Hs; reflexivity.
Qed.

(** ** Dictionaries *)

Lemma dict_find_In : forall (V : Type) (d : list (Z * V)) (k : Z) (v : V),
  dict_find Z.eqb d k = Some v -> In (k, v) d.
Proof.
  induction d as [|[k' v'] d IH]; simpl; intros k v H; [discriminate|].
  destruct (Z.eqb_spec k' k) as [->|_].
  - injection H as ->. now left.
  - right. now apply IH.
Qed.

(** ** The F table *)

(** C3. A degrees-of-freedom argument that is not a key of [F_TABLE], such
    as 11 (sample size 12), is not interpolated between the bracketing rows:
    the row lookup [F_TABLE[freedom]] raises [KeyError], whatever the F
    statistic. *)
Theorem fcdf_untabulated_freedom :
  forall (A : Arith) (f : num) (freedom : Z),
    dict_mem Z.eqb (F_TABLE (A := A)) freedom = false ->
    fcdf f freedom = Raise KeyError.
Proof.
  intros A f freedom H. unfold fcdf, dict_get.
  unfold dict_mem in H.
  destruct (dict_find Z.eqb F_TABLE freedom); [discriminate|reflexivity].
Qed.

Lemma fcdf_untabulated_freedom_witness :
  dict_mem Z.eqb (F_TABLE (A := binary64)) 11 = false /\
  fcdf (A := binary64) 2.0%float 11 = Raise KeyError.
Proof.
  split; [reflexivity|].
  apply (fcdf_untabulated_freedom binary64 2.0%float 11). reflexivity.
Defined.

(** C3, as the specification states it, fails.  The rows of 10 and of 12
    degrees of freedom are in the table and 11 lies between them, yet [fcdf]
    raises [KeyError] at 11, for a statistic below, within and above the
    rows' critical values, in both arithmetics; so does [calc_timing_diff]
    at the sample size 12.  The degrees of freedom select the row; only the
    significance levels of a row are interpolated. *)
Lemma fcdf_rows_not_interpolated :
  dict_mem Z.eqb (F_TABLE (A := binary64)) 10 = true /\
  dict_mem Z.eqb (F_TABLE (A := binary64)) 12 = true /\
  fcdf (A := binary64) 1.0%float 11 = Raise KeyError /\
  fcdf (A := binary64) 2.0%float 11 = Raise KeyError /\
  fcdf (A := binary64) 9.0%float 11 = Raise KeyError /\
  fcdf (A := exact) (IZR 2) 11 = Raise KeyError /\
  calc_timing_diff steady steady 12 (0.05%float : @num binary64)
  = Raise KeyError.
Proof. repeat split; reflexivity. Qed.

Lemma F_TABLE_rows_decreasing :
  forallb row_decreasing (F_TABLE (A := binary64)) = true.
Proof. vm_compute. reflexivity. Qed.

Lemma F_TABLE_rows_endpoints_close :
  forallb row_endpoints_close (F_TABLE (A := binary64)) = true.
Proof. vm_compute. reflexivity. Qed.

Lemma F_TABLE_row_shape : forall (freedom : Z) (table : list float),
  dict_find Z.eqb (F_TABLE (A := binary64)) freedom = Some table ->
  exists t0 t1 t2 t3,
    table = [t0; t1; t2; t3] /\
    (t3 <? t2)%float = true /\ (t2 <? t1)%float = true /\
    (t1 <? t0)%float = true.
Proof.
  intros freedom table H. apply dict_find_In in H.
  pose proof F_TABLE_rows_decreasing as D.
  rewrite forallb_forall in D. specialize (D _ H).
  unfold row_decreasing in D. simpl in D.
  destruct table as [|t0 [|t1 [|t2 [|t3 [|]]]]]; try discriminate.
  apply andb_prop in D as [D D0]. apply andb_prop in D as [D2 D1].
  exists t0, t1, t2, t3. auto.
Qed.

(** The first bracket of [fcdf]'s loop holds at the alpha = 0.01 critical
    value and its interpolation line is evaluated at its [down] end; at the
    other critical values of a row the line is evaluated at its [up] end. *)
Lemma fcdf_endpoint_binary64 :
  fcdf (A := binary64) 15.977%float 4 = Ok 0.010000000000000002%float /\
  fcdf (A := binary64) 9.6045%float 4 = Ok 0.025000000000000005%float.
Proof. split; vm_compute; reflexivity. Qed.

(** On [binary64], for every row of the F table: an F statistic strictly
    above the row's alpha = 0.01 critical value gives 0.001; one strictly
    below its alpha = 0.1 critical value gives 0.2; and at a tabulated
    critical value [fcdf] returns the tabulated alpha of that column up to
    the rounding of the interpolation line, within 1e-16. *)
Lemma fcdf_boundaries_binary64 :
  forall (freedom : Z) (table : list float),
    dict_find Z.eqb (F_TABLE (A := binary64)) freedom = Some table ->
    (forall f c : float,
        nth_error table 0 = Some c -> (c <? f)%float = true ->
        fcdf (A := binary64) f freedom = Ok 0.001%float) /\
    (forall f c : float,
        nth_error table 3 = Some c -> (f <? c)%float = true ->
        fcdf (A := binary64) f freedom = Ok 0.2%float) /\
    (forall (i : nat) (c alpha : float),
        nth_error table i = Some c ->
        nth_error (F_TABLE_ALPHA (A := binary64)) i = Some alpha ->
        exists p : float,
          fcdf (A := binary64) c freedom = Ok p /\
          (abs (p - alpha) <=? endpoint_tolerance)%float = true).
Proof.
  intros freedom table H.
  destruct (F_TABLE_row_shape _ _ H) as (t0 & t1 & t2 & t3 & -> & H32 & H21 & H10).
  assert (Hget : dict_get Z.eqb (F_TABLE (A := binary64)) freedom
                 = Ok [t0; t1; t2; t3])
    by (unfold dict_get; now rewrite H).
  split; [|split].
  - intros f c Hc Hlt. injection Hc as <-.
    unfold fcdf. rewrite Hget. simpl. unfold item. simpl.
    change (@nltb binary64 t0 f) with (t0 <? f)%float. rewrite Hlt. reflexivity.
  - intros f c Hc Hlt. injection Hc as <-.
    assert (H30 : (t3 <? t0)%float = true).
    { rewrite ltb_spec in *. unfold SFltb in *.
      destruct (SFcompare (Prim2SF t3) (Prim2SF t2)) as [[]|] eqn:E1;
        try discriminate.
      destruct (SFcompare (Prim2SF t2) (Prim2SF t1)) as [[]|] eqn:E2;
        try discriminate.
      destruct (SFcompare (Prim2SF t1) (Prim2SF t0)) as [[]|] eqn:E3;
        try discriminate.
      rewrite (SFcompare_lt_trans _ _ _ E1 (SFcompare_lt_trans _ _ _ E2 E3)).
      reflexivity. }
    unfold fcdf. rewrite Hget. simpl. unfold item, item_last. simpl.
    change (@nltb binary64 t0 f) with (t0 <? f)%float.
    rewrite (ltb_chain_false f t3 t0 Hlt H30).
    change (@nltb binary64 f t3) with (f <? t3)%float. rewrite Hlt. reflexivity.
  - intros i c alpha Hc Ha.
    apply dict_find_In in H.
    pose proof F_TABLE_rows_endpoints_close as D.
    rewrite forallb_forall in D. specialize (D _ H).
    unfold row_endpoints_close in D. rewrite forallb_forall in D.
    assert (Hin : In (c, alpha)
                     (combine [t0; t1; t2; t3] (F_TABLE_ALPHA (A := binary64)))).
    { rewrite F_TABLE_ALPHA_binary64 in *.
      destruct i as [|[|[|[|i]]]]; simpl in Hc, Ha;
        [| | | |destruct i; discriminate];
        injection Hc as <-; injection Ha as <-; simpl; auto. }
    specialize (D _ Hin). simpl in D.
    destruct (fcdf (A := binary64) c freedom) as [p|e]; [|discriminate].
    exists p. split; [reflexivity|exact D].
Qed.

(** ** The significance engine *)






(** C6. When [new.variance == 0] the variance ratio
    [f = old.variance / new.variance] raises [ZeroDivisionError], and so
    does [calc_timing_diff]: no [TimingDiff] is produced. *)
Theorem calc_timing_diff_zero_new_variance :
  forall (A : Arith) (new old : Timing) (n : Z) (a : num),
    (variance new ==? of_int 0)%num = true ->
    py_div (variance old) (variance new) = Raise ZeroDivisionError /\
    calc_timing_diff new old n a = Raise ZeroDivisionError.
Proof.
  intros A new old n a H.
  assert (E : py_div (variance old) (variance new) = Raise ZeroDivisionError)
    by (unfold py_div; now rewrite H).
  split; [exact E|]. unfold calc_timing_diff. rewrite E. reflexivity.
Qed.

Lemma calc_timing_diff_zero_new_variance_witness :
  calc_timing_diff constant steady 61 (0.05%float : @num binary64)
  = Raise ZeroDivisionError.
Proof.
  apply (calc_timing_diff_zero_new_variance binary64 constant steady 61
                                            0.05%float).
  reflexivity.
Defined.

(** C9. On [binary64], when [old.variance == 0] and [new.variance > 0] the
    variance ratio [f] is computed and is zero, the test [f >= 1] fails, and
    [1 / f] raises [ZeroDivisionError], which [calc_timing_diff] propagates. *)
Theorem calc_timing_diff_zero_old_variance :
  forall (new old : @Timing binary64) (n : Z) (a : float),
    (variance old =? 0)%float = true ->
    (0 <? variance new)%float = true ->
    exists f : float,
      py_div (A := binary64) (variance old) (variance new) = Ok f /\
      (1 <=? f)%float = false /\
      py_div (A := binary64) 1%float f = Raise ZeroDivisionError /\
      calc_timing_diff new old n a = Raise ZeroDivisionError.
Proof.
  intros new old n a Hold Hnew.
  exists (variance old / variance new)%float.
  assert (E : py_div (A := binary64) (variance old) (variance new)
              = Ok (variance old / variance new)%float).
  { unfold py_div.
    change (@neqb binary64 (variance new) (of_int 0))
      with (variance new =? 0)%float.
    rewrite (pos_nonzero _ Hnew). reflexivity. }
  assert (Hf : (1 <=? variance old / variance new)%float = false /\
               py_div (A := binary64) 1%float (variance old / variance new)%float
               = Raise ZeroDivisionError).
  { destruct (zero_div_pos _ _ Hold Hnew) as [-> | ->]; split; reflexivity. }
  destruct Hf as [Hge Hdiv].
  repeat split; try assumption.
  unfold calc_timing_diff. rewrite E. cbn [bind].
  change (@nleb binary64 (of_int 1) (variance old / variance new)%float)
    with (1 <=? variance old / variance new)%float.
  rewrite Hge.
  change (@py_div binary64 (@of_int binary64 1)
                  (variance old / variance new)%float)
    with (@py_div binary64 1%float (variance old / variance new)%float).
  rewrite Hdiv. reflexivity.
Qed.

Lemma calc_timing_diff_zero_old_variance_witness :
  calc_timing_diff steady constant 61 (0.05%float : @num binary64)
  = Raise ZeroDivisionError.
Proof.
  destruct (calc_timing_diff_zero_old_variance steady constant 61 0.05%float)
    as (f & _ & _ & _ & H); [reflexivity | reflexivity | exact H].
Defined.

(** ** The comparison orchestrator *)

Section DictFacts.
Variables K V : Type.
Variable keq : K -> K -> bool.

Lemma dict_set_fresh : forall (d : list (K * V)) (k : K) (v : V),
  dict_find keq d k = None -> dict_set keq d k v = d ++ [(k, v)].
Proof.
  induction d as [|[k' v'] d IH]; simpl; intros k v H; [reflexivity|].
  destruct (keq k' k); [discriminate|]. now rewrite IH.
Qed.

Lemma dict_find_app_fresh : forall (d : list (K * V)) (k k' : K) (v : V),
  dict_find keq d k' = None -> keq k k' = false ->
  dict_find keq (d ++ [(k, v)]) k' = None.
Proof.
  induction d as [|[k0 v0] d IH]; simpl; intros k k' v H Hk.
  - now rewrite Hk.
  - destruct (keq k0 k'); [discriminate|]. now apply IH.
Qed.

End DictFacts.

Section LoopFacts.
Variables K V W : Type.
Variable keq : K -> K -> bool.

(** A loop that stores one value per item of a dictionary builds the
    dictionary of these values, in the order of the items. *)
Lemma foldM_dict_set :
  forall (g : K * V -> result W) (l : list (K * V)) (acc : list (K * W)),
    dict_ok keq l = true ->
    (forall kv, In kv l -> dict_find keq acc (fst kv) = None) ->
    foldM (fun acc kv => w <- g kv ;; Ok (dict_set keq acc (fst kv) w)) l acc
    = (l' <- mapM (fun kv => w <- g kv ;; Ok (fst kv, w)) l ;; Ok (acc ++ l')).
Proof.
  intros g. induction l as [|[k v] l IH]; intros acc Hok Hacc; simpl.
  - now rewrite app_nil_r.
  - simpl in Hok. apply andb_prop in Hok as [Hk Hok].
    rewrite forallb_forall in Hk.
    destruct (g (k, v)) as [w|e]; simpl; [|reflexivity].
    rewrite dict_set_fresh by (apply (Hacc (k, v)); now left).
    rewrite IH; [|assumption|].
    + destruct (mapM _ l) as [l'|e]; simpl; [|reflexivity].
      now rewrite <- app_assoc.
    + intros kv Hin. apply dict_find_app_fresh.
      * apply Hacc. now right.
      * specialize (Hk kv Hin). now destruct (keq k (fst kv)).
Qed.
End LoopFacts.

Section MapMFacts.
Variables V W : Type.
Variable g : string * V -> result W.

Lemma mapM_keys : forall (l : list (string * V)) (l' : list (string * W)),
  mapM (fun kv => w <- g kv ;; Ok (fst kv, w)) l = Ok l' ->
  dict_keys l' = dict_keys l.
Proof.
  induction l as [|[k v] l IH]; simpl; intros l' H.
  - injection H as <-. reflexivity.
  - destruct (g (k, v)) as [w|e]; simpl in H; [|discriminate].
    destruct (mapM _ l) as [l0|e]; simpl in H; [|discriminate].
    injection H as <-. simpl. f_equal. now apply IH.
Qed.

Lemma mapM_find : forall (l : list (string * V)) (l' : list (string * W))
                         (k : string) (v : V),
  mapM (fun kv => w <- g kv ;; Ok (fst kv, w)) l = Ok l' ->
  dict_find String.eqb l k = Some v ->
  exists w, g (k, v) = Ok w /\ dict_find String.eqb l' k = Some w.
Proof.
  induction l as [|[k0 v0] l IH]; simpl; intros l' k v H Hf; [discriminate|].
  destruct (g (k0, v0)) as [w0|e] eqn:Eg; simpl in H; [|discriminate].
  destruct (mapM _ l) as [l0|e]; simpl in H; [|discriminate].
  injection H as <-. simpl.
  destruct (String.eqb_spec k0 k) as [->|Hne].
  - injection Hf as ->. eauto.
  - now apply IH.
Qed.

Lemma mapM_total : forall (l : list (string * V)),
  (forall kv, In kv l -> exists w, g kv = Ok w) ->
  exists l', mapM (fun kv => w <- g kv ;; Ok (fst kv, w)) l = Ok l'.
Proof.
  induction l as [|kv l IH]; simpl; intros H; [eauto|].
  destruct (H kv (or_introl eq_refl)) as [w ->]. simpl.
  destruct IH as [l' ->]; [intros; apply H; now right|]. simpl. eauto.
Qed.
End MapMFacts.

Lemma dict_find_In_str : forall (V : Type) (d : list (string * V)) k v,
  dict_find String.eqb d k = Some v -> In (k, v) d.
Proof.
  induction d as [|[k' v'] d IH]; simpl; intros k v H; [discriminate|].
  destruct (String.eqb_spec k' k) as [->|_].
  - injection H as ->. now left.
  - right. now apply IH.
Qed.

Lemma foldM_ext_in : forall (S T : Type) (f f' : S -> T -> result S) (l : list T),
  (forall s x, In x l -> f s x = f' s x) ->
  forall s, foldM f l s = foldM f' l s.
Proof.
  induction l as [|x l IH]; simpl; intros H s; [reflexivity|].
  rewrite (H s x (or_introl eq_refl)).
  destruct (f' s x); simpl; [|reflexivity].
  apply IH. intros; apply H; now right.
Qed.

Lemma mapM_map_ok : forall (T U : Type) (f : T -> result U) (h : T -> U) (l : list T),
  (forall x, f x = Ok (h x)) -> mapM f l = Ok (map h l).
Proof.
  induction l as [|x l IH]; simpl; intros H; [reflexivity|].
  rewrite H, (IH H). reflexivity.
Qed.

Lemma mapM_map : forall (T U W : Type) (f : U -> result W) (h : T -> U) (l : list T),
  mapM f (map h l) = mapM (fun x => f (h x)) l.
Proof.
  induction l as [|x l IH]; simpl; [reflexivity|]. now rewrite IH.
Qed.

Lemma dict_find_map_values :
  forall (V W : Type) (h : V -> W) (d : list (string * V)) (k : string),
    dict_find String.eqb (map (fun kv => (fst kv, h (snd kv))) d) k
    = option_map h (dict_find String.eqb d k).
Proof.
  induction d as [|[k' v'] d IH]; simpl; intros k; [reflexivity|].
  destruct (String.eqb k' k); [reflexivity|apply IH].
Qed.

Section Comparison.
Context {A : Arith}.

Lemma compare_bench_value :
  forall benchmarks_b n inner (bb : string * BenchmarkResult),
    compare_bench benchmarks_b n inner bb
    = (r <- compared_bench benchmarks_b n bb ;;
       Ok (dict_set String.eqb inner (fst bb) r)).
Proof.
  intros benchmarks_b n inner bb.
  unfold compare_bench, compared_bench, dict_mem, dict_get.
  destruct (dict_find String.eqb benchmarks_b (fst bb)); simpl;
    [|reflexivity].
  destruct (calc_timing_diff _ _ _ _); reflexivity.
Qed.

Lemma compare_case_value :
  forall (b : Results) n (comparison : Results)
         (cb : string * list (string * BenchmarkResult)),
    dict_ok String.eqb (snd cb) = true ->
    compare_case b n comparison cb
    = (v <- compared_case b n cb ;;
       Ok (dict_set String.eqb comparison (fst cb) v)).
Proof.
  intros b n comparison cb Hok.
  unfold compare_case, compared_case, dict_mem, dict_get.
  destruct (dict_find String.eqb b (fst cb)) as [benchmarks_b|]; simpl;
    [|reflexivity].
  rewrite (foldM_ext_in _ _ (compare_bench benchmarks_b n)
             (fun inner bb =>
                r <- compared_bench benchmarks_b n bb ;;
                Ok (dict_set String.eqb inner (fst bb) r)) (snd cb))
    by (intros; apply compare_bench_value).
  rewrite (foldM_dict_set _ _ _ String.eqb (compared_bench benchmarks_b n));
    [|assumption|reflexivity].
  destruct (mapM _ (snd cb)); reflexivity.
Qed.

(** [compare_results] maps every case of [a] to its compared value. *)
Lemma compare_results_value : forall (a b : Results) (n : Z),
  results_ok a = true ->
  compare_results a b n
  = mapM (fun cb => v <- compared_case b n cb ;; Ok (fst cb, v)) a.
Proof.
  intros a b n Hok. unfold results_ok in Hok.
  apply andb_prop in Hok as [Hout Hin]. rewrite forallb_forall in Hin.
  unfold compare_results.
  rewrite (foldM_ext_in _ _ (compare_case b n)
             (fun comparison cb =>
                v <- compared_case b n cb ;;
                Ok (dict_set String.eqb comparison (fst cb) v)) a)
    by (intros s x Hx; apply compare_case_value; now apply Hin).
  rewrite (foldM_dict_set _ _ _ String.eqb (compared_case b n));
    [|assumption|reflexivity].
  destruct (mapM _ a); reflexivity.
Qed.

Lemma no_diff_result_type : forall r : BenchmarkResult,
  diff (timing r) = None -> queries_diff (queries r) = None ->
  BenchmarkResult_result_type r = Ok NO_PREVIOUS_DATA.
Proof.
  intros r Ht Hq.
  unfold BenchmarkResult_result_type, Queries_result_type,
    Timing_result_type.
  rewrite Ht, Hq. reflexivity.
Qed.

(** [compare_results] returns when every timing comparison of a benchmark
    present in both mappings does. *)
Lemma compare_results_returns : forall (new old : Results) (n : Z),
  results_ok new = true ->
  (forall case benchmarks benchmarks_b bench r r_b,
      In (case, benchmarks) new ->
      dict_find String.eqb old case = Some benchmarks_b ->
      In (bench, r) benchmarks ->
      dict_find String.eqb benchmarks_b bench = Some r_b ->
      exists d, calc_timing_diff (timing r) (timing r_b) n (dec 5 2) = Ok d) ->
  exists cmp, compare_results new old n = Ok cmp.
Proof.
  intros new old n Hok H. rewrite compare_results_value by assumption.
  apply mapM_total. intros [case benchmarks] Hin.
  unfold compared_case. simpl.
  destruct (dict_find String.eqb old case) as [benchmarks_b|] eqn:Eb;
    [|eauto].
  apply mapM_total. intros [bench r] Hinb.
  unfold compared_bench. simpl.
  destruct (dict_find String.eqb benchmarks_b bench) as [r_b|] eqn:Er;
    [|eauto].
  destruct (H _ _ _ _ _ _ Hin Eb Hinb Er) as [d ->]. simpl. eauto.
Qed.
End Comparison.

(** Whenever [compare_results] returns a mapping, the mapping has exactly
    the cases of [new], in their order; a case absent from [old] is mapped to
    the benchmarks of [new], unmodified; in a case that both have, the
    compared benchmarks are those of [new] and a benchmark absent from the old
    case is mapped to the result of [new], unmodified. *)
Lemma compare_results_passes_through :
  forall (A : Arith) (new old cmp : Results) (n : Z),
    results_ok new = true ->
    compare_results new old n = Ok cmp ->
    dict_keys cmp = dict_keys new /\
    (forall case benchmarks,
        dict_find String.eqb new case = Some benchmarks ->
        dict_find String.eqb old case = None ->
        dict_find String.eqb cmp case = Some benchmarks) /\
    (forall case benchmarks benchmarks_b bench r,
        dict_find String.eqb new case = Some benchmarks ->
        dict_find String.eqb old case = Some benchmarks_b ->
        dict_find String.eqb benchmarks bench = Some r ->
        dict_find String.eqb benchmarks_b bench = None ->
        exists compared,
          dict_find String.eqb cmp case = Some compared /\
          dict_keys compared = dict_keys benchmarks /\
          dict_find String.eqb compared bench = Some r) /\
    (forall r : BenchmarkResult,
        diff (timing r) = None -> queries_diff (queries r) = None ->
        BenchmarkResult_result_type r = Ok NO_PREVIOUS_DATA).
Proof.
  intros A new old cmp n Hok H.
  rewrite compare_results_value in H by assumption.
  split; [|split; [|split]].
  - exact (mapM_keys _ _ _ _ _ H).
  - intros case benchmarks Hn Ho.
    destruct (mapM_find _ _ _ _ _ _ _ H Hn) as (w & Hw & Hf).
    unfold compared_case in Hw. simpl in Hw. rewrite Ho in Hw.
    injection Hw as <-. exact Hf.
  - intros case benchmarks benchmarks_b bench r Hn Ho Hb Hob.
    destruct (mapM_find _ _ _ _ _ _ _ H Hn) as (compared & Hw & Hf).
    unfold compared_case in Hw. simpl in Hw. rewrite Ho in Hw.
    exists compared. split; [exact Hf|]. split.
    + exact (mapM_keys _ _ _ _ _ Hw).
    + destruct (mapM_find _ _ _ _ _ _ _ Hw Hb) as (r' & Hr & Hf').
      unfold compared_bench in Hr. simpl in Hr. rewrite Hob in Hr.
      injection Hr as <-. exact Hf'.
  - apply no_diff_result_type.
Qed.

(** An exception of a timing comparison ends [compare_results]: no mapping
    is produced, also for the cases that would have been passed through. *)
Lemma compare_results_propagates :
  compare_results new_run constant_run 61 = Raise ZeroDivisionError.
Proof. reflexivity. Qed.

(** ** Persistence *)

Section Persistence.
Context {A : Arith}.

Lemma BenchmarkResult_roundtrip : forall r : BenchmarkResult,
  BenchmarkResult_from_dict (BenchmarkResult_asdict r) = Ok (persisted r).
Proof. intros r. reflexivity. Qed.

Lemma load_results_write_output : forall data : Results,
  exists doc : json,
    write_output data = Ok doc /\
    load_results doc
    = Ok (map (fun cb => (fst cb,
                          map (fun bb => (fst bb, persisted (snd bb)))
                              (snd cb)))
              data).
Proof.
  intros data. eexists. split; [reflexivity|].
  unfold load_results. cbn [json_items bind].
  rewrite mapM_map.
  erewrite mapM_map_ok; [reflexivity|].
  intros [case benchmarks]. cbn [fst snd json_items bind].
  rewrite mapM_map.
  erewrite mapM_map_ok; [reflexivity|].
  intros [bench r]. reflexivity.
Qed.
End Persistence.

(** C8. A result stored under a case and a benchmark name is, after
    [write_output] and [load_results], found under the same names with the
    same timing average, standard deviation and variance and the same cost
    value; its timing diff and its cost diff are [None] and it has no
    captured queries (the field is the empty list). *)
Theorem persistence_roundtrip :
  forall (A : Arith) (data : Results) (case bench : string)
         (benchmarks : list (string * BenchmarkResult)) (r : BenchmarkResult),
    dict_find String.eqb data case = Some benchmarks ->
    dict_find String.eqb benchmarks bench = Some r ->
    exists (doc : json) (loaded : Results)
           (benchmarks' : list (string * BenchmarkResult))
           (r' : BenchmarkResult),
      write_output data = Ok doc /\
      load_results doc = Ok loaded /\
      dict_find String.eqb loaded case = Some benchmarks' /\
      dict_find String.eqb benchmarks' bench = Some r' /\
      average (timing r') = average (timing r) /\
      stdev (timing r') = stdev (timing r) /\
      variance (timing r') = variance (timing r) /\
      value (queries r') = value (queries r) /\
      diff (timing r') = None /\
      queries_diff (queries r') = None /\
      captured_queries (queries r') = [].
Proof.
  intros A data case bench benchmarks r Hc Hb.
  destruct (load_results_write_output data) as (doc & Hw & Hl).
  exists doc. eexists. eexists. exists (persisted r).
  split; [exact Hw|]. split; [exact Hl|]. split.
  - rewrite (dict_find_map_values _ _
               (fun bs => map (fun bb => (fst bb, persisted (snd bb))) bs)).
    rewrite Hc. reflexivity.
  - split.
    + rewrite (dict_find_map_values _ _ persisted). rewrite Hb. reflexivity.
    + repeat split; reflexivity.
Qed.

Lemma persistence_roundtrip_witness :
  exists (doc : json) (loaded : Results) (r' : @BenchmarkResult binary64),
    write_output compared_run = Ok doc /\
    load_results doc = Ok loaded /\
    (exists benchmarks',
        dict_find String.eqb loaded "app.benchmarks.Orders" = Some benchmarks' /\
        dict_find String.eqb benchmarks' "bench_list" = Some r') /\
    average (timing r') = 2.0%float /\
    value (queries r') = 3.0%float /\
    diff (timing r') = None /\
    queries_diff (queries r') = None /\
    captured_queries (queries r') = [].
Proof.
  destruct (persistence_roundtrip binary64 compared_run
              "app.benchmarks.Orders" "bench_list"
              [ ("bench_list", compared_result) ] compared_result
              eq_refl eq_refl)
    as (doc & loaded & benchmarks' & r' & Hw & Hl & Hc & Hb & Ha & _ & _ & Hv
        & Hd & Hq & Hcq).
  exists doc, loaded, r'.
  split; [exact Hw|]. split; [exact Hl|]. split; [eauto|].
  split; [exact Ha|]. split; [exact Hv|]. split; [exact Hd|].
  split; [exact Hq|exact Hcq].
Defined.

(** ** Exact arithmetic *)

Lemma Rltb_true : forall x y : R, (x < y)%R -> Rltb x y = true.
Proof. intros x y H. unfold Rltb. destruct (Rlt_dec x y); [reflexivity|contradiction]. Qed.
Lemma Rltb_false : forall x y : R, (y <= x)%R -> Rltb x y = false.
Proof. intros x y H. unfold Rltb. destruct (Rlt_dec x y); [lra|reflexivity]. Qed.

(** Unfold the interface at [exact] and write the decimals as quotients of
    integer constants. *)
Ltac exact_arith :=
  repeat match goal with
         | |- context [@dec exact ?m ?k] =>
             let d := eval vm_compute in (10 ^ Z.of_nat k)%Z in
             change (@dec exact m k) with (IZR m / IZR d)%R
         | H : context [@dec exact ?m ?k] |- _ =>
             let d := eval vm_compute in (10 ^ Z.of_nat k)%Z in
             change (@dec exact m k) with (IZR m / IZR d)%R in H
         end;
  change (@nadd exact) with Rplus in *;
  change (@nsub exact) with Rminus in *;
  change (@nmul exact) with Rmult in *;
  change (@ndiv exact) with Rdiv in *;
  change (@nsqrt exact) with R_sqrt.sqrt in *;
  change (@nneg exact) with Ropp in *;
  change (@neqb exact) with Reqb in *;
  change (@nltb exact) with Rltb in *;
  change (@nleb exact) with Rleb in *;
  change (@nfinite exact) with (fun _ : R => true) in *;
  change (@of_int exact) with IZR in *;
  change (@num exact) with R in *.

Lemma F_TABLE_rows_exact :
  Forall (fun kr => F_row (snd kr)) (F_TABLE (A := exact)).
Proof.
  unfold F_TABLE.
  repeat (constructor; [do 4 eexists; split; [reflexivity|]; exact_arith; lra|]).
  constructor.
Qed.

Lemma F_TABLE_row_exact : forall (fr : Z) (table : list R),
  dict_find Z.eqb (F_TABLE (A := exact)) fr = Some table -> F_row table.
Proof.
  intros fr table H. apply dict_find_In in H.
  pose proof F_TABLE_rows_exact as D. rewrite Forall_forall in D.
  exact (D _ H).
Qed.

Ltac run_exact :=
  cbn [bind item nth_error item_last List.length Nat.sub Nat.add seq
       fcdf_loop invt_loop F_TABLE_ALPHA INV_T_TABLE_FREEDOM
       linear_regression fst snd].

(** Decide the comparisons of the goal, one after the other. *)
Ltac split_cmp :=
  unfold Rltb, Rleb, Reqb;
  repeat match goal with
         | |- context [Rlt_dec ?x ?y] => destruct (Rlt_dec x y)
         | |- context [Rle_dec ?x ?y] => destruct (Rle_dec x y)
         | |- context [Req_dec_T ?x ?y] => destruct (Req_dec_T x y)
         end.



(** At a tabulated critical value the interpolation line of exact
    arithmetic gives the tabulated alpha. *)
Lemma fcdf_exact_endpoint :
  forall (fr : Z) (table : list R) (i : nat) (c alpha : R),
    dict_find Z.eqb (F_TABLE (A := exact)) fr = Some table ->
    nth_error table i = Some c ->
    nth_error (F_TABLE_ALPHA (A := exact)) i = Some alpha ->
    fcdf (A := exact) c fr = Ok alpha.
Proof.
  intros fr table i c alpha H Hc Ha.
  destruct (F_TABLE_row_exact _ _ H) as (t0 & t1 & t2 & t3 & -> & H3 & H1).
  unfold fcdf, dict_get. rewrite H. run_exact.
  unfold linear_regression, py_div. cbn [fst snd].
  destruct i as [|[|[|[|i]]]]; cbn [nth_error F_TABLE_ALPHA] in Hc, Ha;
    [| | | |destruct i; discriminate];
    injection Hc as <-; injection Ha as <-;
    exact_arith; split_cmp; cbn [bind]; try (exfalso; lra);
    f_equal; field; lra.
Qed.

Lemma dict_find_In_key :
  forall (K V : Type) (keq : K -> K -> bool) (d : list (K * V)) (k : K) (v : V),
    dict_find keq d k = Some v -> exists k', In (k', v) d /\ keq k' k = true.
Proof.
  induction d as [|[k0 v0] d IH]; simpl; intros k v H; [discriminate|].
  destruct (keq k0 k) eqn:E.
  - injection H as ->. exists k0. auto.
  - destruct (IH _ _ H) as (k' & Hin & Hk). eauto.
Qed.







Lemma dict_mem_find : forall (K V : Type) (keq : K -> K -> bool)
                             (d : list (K * V)) (k : K),
  dict_mem keq d k = true -> exists v, dict_find keq d k = Some v.
Proof.
  intros K V keq d k H. unfold dict_mem in H.
  destruct (dict_find keq d k); [eauto|discriminate].
Qed.















(** ** Both arithmetics *)

(** Above and below the row in exact arithmetic. *)
Lemma fcdf_exact_outside :
  forall (fr : Z) (table : list R),
    dict_find Z.eqb (F_TABLE (A := exact)) fr = Some table ->
    (forall f c : R,
        nth_error table 0 = Some c -> (c < f)%R ->
        fcdf (A := exact) f fr = Ok (dec 1 3)) /\
    (forall f c : R,
        nth_error table 3 = Some c -> (f < c)%R ->
        fcdf (A := exact) f fr = Ok (dec 2 1)).
Proof.
  intros fr table H.
  destruct (F_TABLE_row_exact _ _ H) as (t0 & t1 & t2 & t3 & -> & H3 & H1).
  split; intros f c Hc Hf; injection Hc as <-;
    unfold fcdf, dict_get; rewrite H; run_exact; exact_arith.
  - rewrite Rltb_true by lra. reflexivity.
  - rewrite Rltb_false by lra. rewrite Rltb_true by lra. reflexivity.
Qed.

(** C4, as the code has it.  For every row of the F table, in both
    arithmetics: an F statistic strictly above the row's alpha = 0.01
    critical value gives 0.001 and one strictly below its alpha = 0.1
    critical value gives 0.2.  At a tabulated critical value [fcdf] returns
    the tabulated alpha of the column exactly in exact arithmetic, and on
    [binary64] up to the rounding of the interpolation line, within 1e-16. *)
Theorem fcdf_boundaries :
  forall freedom : Z,
    (forall table : list float,
        dict_find Z.eqb (F_TABLE (A := binary64)) freedom = Some table ->
        (forall f c : float,
            nth_error table 0 = Some c -> (c <? f)%float = true ->
            fcdf (A := binary64) f freedom = Ok 0.001%float) /\
        (forall f c : float,
            nth_error table 3 = Some c -> (f <? c)%float = true ->
            fcdf (A := binary64) f freedom = Ok 0.2%float) /\
        (forall (i : nat) (c alpha : float),
            nth_error table i = Some c ->
            nth_error (F_TABLE_ALPHA (A := binary64)) i = Some alpha ->
            exists p : float,
              fcdf (A := binary64) c freedom = Ok p /\
              (abs (p - alpha) <=? endpoint_tolerance)%float = true)) /\
    (forall table : list R,
        dict_find Z.eqb (F_TABLE (A := exact)) freedom = Some table ->
        (forall f c : R,
            nth_error table 0 = Some c -> (c < f)%R ->
            fcdf (A := exact) f freedom = Ok (dec 1 3)) /\
        (forall f c : R,
            nth_error table 3 = Some c -> (f < c)%R ->
            fcdf (A := exact) f freedom = Ok (dec 2 1)) /\
        (forall (i : nat) (c alpha : R),
            nth_error table i = Some c ->
            nth_error (F_TABLE_ALPHA (A := exact)) i = Some alpha ->
            fcdf (A := exact) c freedom = Ok alpha)).
Proof.
  intros freedom. split.
  - apply fcdf_boundaries_binary64.
  - intros table H.
    destruct (fcdf_exact_outside freedom table H) as [Habove Hbelow].
    split; [exact Habove|]. split; [exact Hbelow|].
    intros i c alpha. now apply fcdf_exact_endpoint.
Qed.

Lemma fcdf_boundaries_witness :
  fcdf (A := binary64) 20.0%float 4 = Ok 0.001%float /\
  fcdf (A := binary64) 1.0%float 4 = Ok 0.2%float /\
  (exists p : float,
      fcdf (A := binary64) 6.3882%float 4 = Ok p /\
      (abs (p - 0.05) <=? endpoint_tolerance)%float = true) /\
  fcdf (A := exact) (dec 63882 4) 4 = Ok (dec 5 2).
Proof.
  destruct (fcdf_boundaries 4) as [Hb He].
  destruct (Hb [15.977; 9.6045; 6.3882; 4.10725]%float eq_refl)
    as (Hhi & Hlo & Hat).
  destruct (He _ eq_refl)
    as (_ & _ & Hex).
  split; [|split; [|split]].
  - apply (Hhi 20.0%float 15.977%float); reflexivity.
  - apply (Hlo 1.0%float 4.10725%float); reflexivity.
  - apply (Hat 2%nat 6.3882%float 0.05%float); reflexivity.
  - apply (Hex 2%nat); reflexivity.
Defined.

(** C4, as the specification states it, fails on [binary64]: at the
    alpha = 0.01 critical value of the row for 4 degrees of freedom [fcdf]
    returns the double next but one above 0.01, not the tabulated 0.01. *)
Lemma fcdf_endpoint_inexact :
  fcdf (A := binary64) 15.977%float 4 = Ok 0.010000000000000002%float /\
  (0.010000000000000002 =? 0.01)%float = false /\
  fcdf (A := binary64) 15.977%float 4 <> Ok 0.01%float.
Proof.
  assert (E : fcdf (A := binary64) 15.977%float 4
              = Ok 0.010000000000000002%float) by (vm_compute; reflexivity).
  split; [exact E|]. split; [reflexivity|].
  rewrite E. intros H.
  apply (f_equal (fun r : result float =>
                    match r with
                    | Ok x => (x =? 0.01)%float
                    | Raise _ => true
                    end)) in H.
  vm_compute in H. discriminate H.
Qed.


(** The §8 scenario on [binary64]: identical samples of positive
    variance. *)
Lemma identical_samples_binary64 :
  calc_timing_diff steady steady 61 (0.05%float : @num binary64)
  = Ok {| average_diff := 0.0%float : @num binary64; negligible := true |}.
Proof. reflexivity. Qed.


(** C7, as the code has it.  When every timing comparison of a benchmark
    present in both mappings returns, [compare_results] returns a mapping
    that has exactly the cases of [new]; a case absent from [old] is mapped
    to the benchmarks of [new], unmodified; in a case that both have, a
    benchmark absent from the old case is mapped to the result of [new],
    unmodified; and a result whose two diff fields are [None], as [run_bench]
    and [load_results] build them, is classified NO_PREVIOUS_DATA. *)
Theorem compare_results_frame :
  forall (A : Arith) (new old : Results) (n : Z),
    results_ok new = true ->
    (forall case benchmarks benchmarks_b bench r r_b,
        In (case, benchmarks) new ->
        dict_find String.eqb old case = Some benchmarks_b ->
        In (bench, r) benchmarks ->
        dict_find String.eqb benchmarks_b bench = Some r_b ->
        exists d, calc_timing_diff (timing r) (timing r_b) n (dec 5 2) = Ok d) ->
    exists cmp : Results,
      compare_results new old n = Ok cmp /\
      dict_keys cmp = dict_keys new /\
      (forall case benchmarks,
          dict_find String.eqb new case = Some benchmarks ->
          dict_find String.eqb old case = None ->
          dict_find String.eqb cmp case = Some benchmarks) /\
      (forall case benchmarks benchmarks_b bench r,
          dict_find String.eqb new case = Some benchmarks ->
          dict_find String.eqb old case = Some benchmarks_b ->
          dict_find String.eqb benchmarks bench = Some r ->
          dict_find String.eqb benchmarks_b bench = None ->
          exists compared,
            dict_find String.eqb cmp case = Some compared /\
            dict_keys compared = dict_keys benchmarks /\
            dict_find String.eqb compared bench = Some r) /\
      (forall r : BenchmarkResult,
          diff (timing r) = None -> queries_diff (queries r) = None ->
          BenchmarkResult_result_type r = Ok NO_PREVIOUS_DATA).
Proof.
  intros A new old n Hok Hshared.
  destruct (compare_results_returns new old n Hok Hshared) as [cmp Hcmp].
  exists cmp. split; [exact Hcmp|].
  exact (compare_results_passes_through A new old cmp n Hok Hcmp).
Qed.

Lemma compare_results_frame_witness :
  exists cmp : @Results binary64,
    compare_results new_run baseline 61 = Ok cmp /\
    dict_keys cmp = dict_keys new_run /\
    dict_find String.eqb cmp "app.benchmarks.Users"
    = Some [ ("bench_login", mk_result (A := binary64) 2.0%float noisy) ] /\
    (exists compared,
        dict_find String.eqb cmp "app.benchmarks.Orders" = Some compared /\
        dict_find String.eqb compared "bench_create"
        = Some (mk_result (A := binary64) 5.0%float steady)).
Proof.
  destruct (compare_results_frame binary64 new_run baseline 61 eq_refl)
    as (cmp & Hcmp & Hkeys & Hcase & Hbench & _).
  - intros case benchmarks benchmarks_b bench r r_b Hin Hold Hinb Hb.
    destruct Hin as [Hin|[Hin|[]]]; injection Hin as <- <-;
      cbn in Hold; [|discriminate Hold].
    injection Hold as <-.
    destruct Hinb as [Hinb|[Hinb|[]]]; injection Hinb as <- <-;
      cbn in Hb; [|discriminate Hb].
    injection Hb as <-. eexists. reflexivity.
  - exists cmp. split; [exact Hcmp|]. split; [exact Hkeys|]. split.
    + apply Hcase; reflexivity.
    + destruct (Hbench "app.benchmarks.Orders"
                  [ ("bench_list", mk_result (A := binary64) 3.0%float slower);
                    ("bench_create", mk_result (A := binary64) 5.0%float steady) ]
                  [ ("bench_list", mk_result (A := binary64) 3.0%float steady) ]
                  "bench_create"
                  (mk_result (A := binary64) 5.0%float steady)
                  eq_refl eq_refl eq_refl eq_refl)
        as (compared & Hc & _ & Hr).
      exists compared. split; assumption.
Defined.

(** C7, as stated for every pair of mappings and every sample size, fails:
    at sample size 12 the F table has no row for the benchmark that both
    mappings have, the [KeyError] ends [compare_results], and the case that
    only the new mapping has is not passed through. *)
Lemma compare_results_no_output :
  results_ok new_run = true /\
  dict_find String.eqb baseline "app.benchmarks.Users" = None /\
  compare_results new_run baseline 12 = Raise KeyError.
Proof. repeat split; reflexivity. Qed.

(** ** The scenarios of §8 on [binary64] *)

(** Identical samples at n = 61: negligible, verdict UNCHANGED. *)
Example scenario_unchanged :
  exists d : TimingDiff,
    calc_timing_diff steady steady 61 (0.05%float : @num binary64) = Ok d /\
    negligible d = true /\
    TimingDiff_result_type d = UNCHANGED.
Proof. eexists. repeat split; reflexivity. Qed.

(** New average 2.0 s against old average 1.0 s at n = 61: the null
    hypothesis is rejected, the signed delta is +1.0, verdict REGRESSION. *)
Example scenario_regression :
  exists d : TimingDiff,
    calc_timing_diff slower steady 61 (0.05%float : @num binary64) = Ok d /\
    negligible d = false /\
    average_diff d = 1.0%float /\
    TimingDiff_result_type d = REGRESSION.
Proof. eexists. repeat split; reflexivity. Qed.

(** Cost classification: delta 0, +3, -3 and no baseline. *)
Example scenario_cost_classification :
  let cost (d : option float) : @Queries binary64 :=
    {| value := 4.0%float : @num binary64;
       captured_queries := [];
       queries_diff := d |} in
  Queries_result_type (cost (Some 0.0%float)) = UNCHANGED /\
  Queries_result_type (cost (Some 3.0%float)) = REGRESSION /\
  Queries_result_type (cost (Some (-3.0)%float)) = IMPROVEMENT /\
  Queries_result_type (cost None) = NO_PREVIOUS_DATA.
Proof. repeat split; reflexivity. Qed.

(** The verdict of a compared benchmark merges the verdicts of its two
    dimensions: one more query per run and one more second per run. *)
Example scenario_combined_verdict :
  BenchmarkResult_result_type compared_result = Ok REGRESSION.
Proof. reflexivity. Qed.

(** * Further properties *)

(** ** Verdicts, the rest *)

(** [merge] is commutative, associative and idempotent, NO_PREVIOUS_DATA is
    its neutral element and MIXED absorbs: the verdict of several results
    does not depend on the order in which they are merged, and merging never
    raises. *)
Theorem merge_semilattice : forall v1 v2 v3 : ResultType,
  merge v1 v2 = merge v2 v1 /\
  (m <- merge v1 v2 ;; merge m v3) = (m <- merge v2 v3 ;; merge v1 m) /\
  merge v1 v1 = Ok v1 /\
  merge NO_PREVIOUS_DATA v1 = Ok v1 /\
  merge MIXED v1 = Ok MIXED.
Proof. intros [] [] []; repeat split; reflexivity. Qed.

(** The merged verdict is MIXED exactly when an argument is MIXED or the
    two arguments are REGRESSION and IMPROVEMENT, in either order. *)
Theorem merge_mixed_iff : forall v1 v2 : ResultType,
  merge v1 v2 = Ok MIXED <->
  v1 = MIXED \/ v2 = MIXED \/
  (v1 = REGRESSION /\ v2 = IMPROVEMENT) \/
  (v1 = IMPROVEMENT /\ v2 = REGRESSION).
Proof.
  intros [] []; simpl; split; intros H;
    try discriminate H; try reflexivity; auto;
    repeat (destruct H as [H|H]); try discriminate H;
    destruct H as [H1 H2]; discriminate.
Qed.

(** [pretty_print] has a label for every verdict: [PRETTY] has every
    member of the enumeration as a key, so that the lookup never raises
    [KeyError]; and two different verdicts have different labels. *)
Theorem pretty_print_total_injective :
  (forall v : ResultType, exists s : string, pretty_print v = Ok s) /\
  (forall v1 v2 : ResultType, pretty_print v1 = pretty_print v2 -> v1 = v2).
Proof.
  split.
  - intros []; eexists; reflexivity.
  - intros [] [] H; try reflexivity; discriminate H.
Qed.

(** ** Names *)

Lemma rfind_absent : forall (c : ascii) (s : string),
  has_char c s = false -> rfind c s = -1.
Proof.
  induction s as [|a s IH]; simpl; intros H; [reflexivity|].
  apply orb_false_elim in H as [Ha Hs].
  rewrite (IH Hs). simpl. now rewrite Ha.
Qed.

Lemma rfind_range : forall (c : ascii) (s : string),
  -1 <= rfind c s < Z.of_nat (String.length s).
Proof.
  induction s as [|a s IH]; simpl String.length; simpl rfind; [lia|].
  destruct (0 <=? rfind c s)%Z eqn:E.
  - apply Z.leb_le in E. lia.
  - destruct (Ascii.eqb a c); lia.
Qed.

(** What follows the last occurrence of the character holds none. *)
Lemma slice_after_rfind : forall (c : ascii) (s : string),
  has_char c (slice_from (Z.to_nat (rfind c s + 1)) s) = false.
Proof.
  induction s as [|a s IH]; [reflexivity|].
  simpl rfind.
  destruct (0 <=? rfind c s)%Z eqn:E.
  - apply Z.leb_le in E.
    replace (Z.to_nat (rfind c s + 1 + 1)) with (S (Z.to_nat (rfind c s + 1)))
      by lia.
    simpl. exact IH.
  - apply Z.leb_gt in E.
    assert (Hr : rfind c s = -1) by (pose proof (rfind_range c s); lia).
    rewrite Hr in IH. simpl in IH.
    destruct (Ascii.eqb a c) eqn:Ea.
    + simpl. exact IH.
    + simpl. rewrite Ea. exact IH.
Qed.

Lemma rfind_app_dot : forall (c : ascii) (m n : string),
  has_char c n = false ->
  rfind c (m ++ String c n)%string = Z.of_nat (String.length m).
Proof.
  induction m as [|a m IH]; intros n Hn.
  - simpl. rewrite (rfind_absent c n Hn). simpl. now rewrite Ascii.eqb_refl.
  - simpl String.length. simpl append. simpl rfind. rewrite (IH n Hn).
    destruct (0 <=? Z.of_nat (String.length m))%Z eqn:E; [lia|].
    apply Z.leb_gt in E. lia.
Qed.

Lemma slice_from_app_cons : forall (c : ascii) (m n : string),
  slice_from (S (String.length m)) (m ++ String c n)%string = n.
Proof.
  induction m as [|a m IH]; intros n; [now destruct n|].
  simpl String.length. simpl append. exact (IH n).
Qed.

(** [class_name] gives back the name of a class from its qualified name,
    whatever the module, when the name of the class has no dot. *)
Theorem class_name_of_qualified_name : forall c : PyClass,
  has_char "." (py_name c) = false ->
  class_name (qualified_name c) = py_name c.
Proof.
  intros [m n] H. unfold class_name, qualified_name. simpl py_module.
  simpl py_name in *.
  change (m ++ "." ++ n)%string with (m ++ String "." n)%string.
  rewrite (rfind_app_dot "." m n H).
  replace (Z.to_nat (Z.of_nat (String.length m) + 1))
    with (S (String.length m)) by lia.
  apply slice_from_app_cons.
Qed.

Lemma class_name_of_qualified_name_witness :
  class_name (qualified_name orders_class) = "Orders".
Proof. apply (class_name_of_qualified_name orders_class). reflexivity. Defined.

(** The text [class_name] returns has no dot; [class_name] is idempotent,
    and it is the identity on a text without a dot ([rfind] is -1 and the
    slice starts at 0). *)
Theorem class_name_has_no_dot : forall x : string,
  has_char "." (class_name x) = false /\
  class_name (class_name x) = class_name x /\
  (has_char "." x = false -> class_name x = x).
Proof.
  intros x.
  assert (H1 : has_char "." (class_name x) = false)
    by apply slice_after_rfind.
  assert (H2 : forall y, has_char "." y = false -> class_name y = y).
  { intros y Hy. unfold class_name. rewrite (rfind_absent "." y Hy). reflexivity. }
  split; [exact H1|]. split; [apply H2; exact H1|apply H2].
Qed.

(** ** The significance engine, conversely *)



(** ** Verdicts of a result *)

Lemma Timing_result_type_not_mixed : forall (A : Arith) (t : Timing),
  Timing_result_type t <> MIXED.
Proof.
  intros A t. unfold Timing_result_type, TimingDiff_result_type.
  destruct (diff t) as [d|]; [|discriminate].
  destruct (negligible d); [discriminate|].
  destruct (of_int 0 <? average_diff d)%num; discriminate.
Qed.

Lemma Queries_result_type_not_mixed : forall (A : Arith) (q : Queries),
  Queries_result_type q <> MIXED.
Proof.
  intros A q. unfold Queries_result_type.
  destruct (queries_diff q) as [d|]; [|discriminate].
  destruct (d ==? of_int 0)%num; [discriminate|].
  destruct (of_int 0 <? d)%num; discriminate.
Qed.

(** The verdict of a benchmark is always defined.  It is MIXED exactly when
    one of cost and timing regressed and the other improved; it is
    NO_PREVIOUS_DATA exactly when neither has a diff; and when it is UNCHANGED
    neither the cost nor the timing regressed or improved. *)
Theorem BenchmarkResult_result_type_verdicts :
  forall (A : Arith) (r : BenchmarkResult),
    exists v : ResultType,
      BenchmarkResult_result_type r = Ok v /\
      (v = MIXED <->
       (Queries_result_type (queries r) = REGRESSION /\
        Timing_result_type (timing r) = IMPROVEMENT) \/
       (Queries_result_type (queries r) = IMPROVEMENT /\
        Timing_result_type (timing r) = REGRESSION)) /\
      (v = NO_PREVIOUS_DATA <->
       queries_diff (queries r) = None /\ diff (timing r) = None) /\
      (v = UNCHANGED ->
       Queries_result_type (queries r) <> REGRESSION /\
       Queries_result_type (queries r) <> IMPROVEMENT /\
       Timing_result_type (timing r) <> REGRESSION /\
       Timing_result_type (timing r) <> IMPROVEMENT).
Proof.
  intros A r. unfold BenchmarkResult_result_type.
  pose proof (Timing_result_type_not_mixed A (timing r)) as Ht.
  pose proof (Queries_result_type_not_mixed A (queries r)) as Hq.
  assert (Hqn : Queries_result_type (queries r) = NO_PREVIOUS_DATA <->
                queries_diff (queries r) = None).
  { unfold Queries_result_type.
    destruct (queries_diff (queries r)) as [d|]; [|tauto].
    destruct (d ==? of_int 0)%num; [split; discriminate|].
    destruct (of_int 0 <? d)%num; split; discriminate. }
  assert (Htn : Timing_result_type (timing r) = NO_PREVIOUS_DATA <->
                diff (timing r) = None).
  { unfold Timing_result_type, TimingDiff_result_type.
    destruct (diff (timing r)) as [d|]; [|tauto].
    destruct (negligible d); [split; discriminate|].
    destruct (of_int 0 <? average_diff d)%num; split; discriminate. }
  revert Ht Hq Hqn Htn.
  destruct (Queries_result_type (queries r)), (Timing_result_type (timing r));
    intros Ht Hq Hqn Htn; try (exfalso; congruence);
    (eexists; split; [reflexivity|]);
    intuition (try discriminate; try congruence).
Qed.

(** ** The comparison orchestrator, the compared benchmarks *)

(** A benchmark that both mappings have comes out of [compare_results]
    under the same names with both diffs set: the timing diff is the result
    of [calc_timing_diff] on the two timings at level 0.05, the cost diff is
    the new value minus the old one; the value, the captured queries, the
    average, the standard deviation and the variance are those of the new
    run. *)
Theorem compare_results_shared :
  forall (A : Arith) (new old cmp : Results) (n : Z),
    results_ok new = true ->
    compare_results new old n = Ok cmp ->
    forall case benchmarks benchmarks_b bench r r_b,
      dict_find String.eqb new case = Some benchmarks ->
      dict_find String.eqb old case = Some benchmarks_b ->
      dict_find String.eqb benchmarks bench = Some r ->
      dict_find String.eqb benchmarks_b bench = Some r_b ->
      exists (compared : list (string * BenchmarkResult))
             (r' : BenchmarkResult) (d : TimingDiff),
        dict_find String.eqb cmp case = Some compared /\
        dict_find String.eqb compared bench = Some r' /\
        calc_timing_diff (timing r) (timing r_b) n (dec 5 2) = Ok d /\
        diff (timing r') = Some d /\
        queries_diff (queries r')
        = Some (nsub (value (queries r)) (value (queries r_b))) /\
        value (queries r') = value (queries r) /\
        captured_queries (queries r') = captured_queries (queries r) /\
        average (timing r') = average (timing r) /\
        stdev (timing r') = stdev (timing r) /\
        variance (timing r') = variance (timing r).
Proof.
  intros A new old cmp n Hok H case benchmarks benchmarks_b bench r r_b
         Hn Ho Hb Hob.
  rewrite compare_results_value in H by assumption.
  destruct (mapM_find _ _ _ _ _ _ _ H Hn) as (compared & Hw & Hf).
  unfold compared_case in Hw. simpl in Hw. rewrite Ho in Hw.
  destruct (mapM_find _ _ _ _ _ _ _ Hw Hb) as (r' & Hr & Hf').
  unfold compared_bench in Hr. simpl in Hr. rewrite Hob in Hr.
  destruct (calc_timing_diff (timing r) (timing r_b) n (dec 5 2)) as [d|e];
    cbn [bind] in Hr; [|discriminate Hr].
  injection Hr as <-.
  exists compared. eexists. exists d.
  split; [exact Hf|]. split; [exact Hf'|].
  repeat split; reflexivity.
Qed.

Lemma compare_results_shared_witness :
  exists (compared : list (string * @BenchmarkResult binary64))
         (r' : @BenchmarkResult binary64) (d : @TimingDiff binary64),
    dict_find String.eqb compared_new_run "app.benchmarks.Orders"
    = Some compared /\
    dict_find String.eqb compared "bench_list" = Some r' /\
    calc_timing_diff slower steady 61 (dec 5 2) = Ok d /\
    diff (timing r') = Some d /\
    queries_diff (queries r') = Some (3.0 - 3.0)%float /\
    value (queries r') = 3.0%float.
Proof.
  destruct (compare_results_shared binary64 new_run baseline compared_new_run
              61 eq_refl eq_refl
              "app.benchmarks.Orders"
              [ ("bench_list", mk_result (A := binary64) 3.0%float slower);
                ("bench_create", mk_result (A := binary64) 5.0%float steady) ]
              [ ("bench_list", mk_result (A := binary64) 3.0%float steady) ]
              "bench_list"
              (mk_result (A := binary64) 3.0%float slower)
              (mk_result (A := binary64) 3.0%float steady)
              eq_refl eq_refl eq_refl eq_refl)
    as (compared & r' & d & Hc & Hb & Hd & Ht & Hq & Hv & _).
  exists compared, r', d. repeat split; assumption.
Defined.

Lemma mapM_id : forall (T : Type) (f : T -> result T) (l : list T),
  (forall x, In x l -> f x = Ok x) -> mapM f l = Ok l.
Proof.
  induction l as [|x l IH]; simpl; intros H; [reflexivity|].
  rewrite (H x (or_introl eq_refl)). cbn [bind].
  rewrite IH by (intros; apply H; now right). reflexivity.
Qed.

(** Against a baseline that has none of the cases of the new run, in
    particular against an empty one, [compare_results] returns the new run
    as it is, whatever the sample size. *)
Theorem compare_results_disjoint :
  forall (A : Arith) (new old : Results) (n : Z),
    results_ok new = true ->
    (forall case, dict_mem String.eqb new case = true ->
                  dict_find String.eqb old case = None) ->
    compare_results new old n = Ok new.
Proof.
  intros A new old n Hok Hd.
  assert (Hkeys : forall cb, In cb new ->
                             dict_find String.eqb old (fst cb) = None).
  { intros [case benchmarks] Hin. apply Hd. unfold dict_mem. simpl.
    unfold results_ok in Hok. apply andb_prop in Hok as [Hout _].
    clear Hd. revert Hout Hin.
    induction new as [|[k v] l IH]; simpl; intros Hout Hin; [contradiction|].
    destruct (String.eqb_spec k case) as [->|Hne]; [reflexivity|].
    apply andb_prop in Hout as [_ Hout].
    destruct Hin as [Hin|Hin]; [congruence|]. now apply IH. }
  rewrite compare_results_value by assumption.
  apply mapM_id. intros [case benchmarks] Hin.
  unfold compared_case. rewrite (Hkeys _ Hin). reflexivity.
Qed.

Lemma compare_results_disjoint_witness :
  compare_results new_run constant_run 61 <> Ok new_run /\
  compare_results new_run [] 61 = Ok new_run.
Proof.
  split; [discriminate|].
  apply (compare_results_disjoint binary64 new_run [] 61); reflexivity.
Defined.

(** ** Persistence, a second time *)

Lemma map_id_Forall : forall (T : Type) (h : T -> T) (l : list T),
  Forall (fun x => h x = x) l -> map h l = l.
Proof.
  induction 1 as [|x l Hx _ IH]; simpl; [reflexivity|]. now rewrite Hx, IH.
Qed.

(** Persistence is idempotent.  Every run can be written; the file
    [write_output] writes can be loaded; and what is loaded from it, written
    and loaded once more, comes back unchanged: the diffs and the captured
    queries are lost in the first round trip, nothing in the second. *)
Theorem persistence_idempotent :
  forall (A : Arith) (data : Results),
    exists (doc : json) (loaded : Results) (doc' : json),
      write_output data = Ok doc /\
      load_results doc = Ok loaded /\
      write_output loaded = Ok doc' /\
      load_results doc' = Ok loaded.
Proof.
  intros A data.
  destruct (load_results_write_output data) as (doc & Hw & Hl).
  exists doc. eexists.
  destruct (load_results_write_output
              (map (fun cb : string * list (string * BenchmarkResult) =>
                      (fst cb,
                       map (fun bb : string * BenchmarkResult =>
                              (fst bb, persisted (snd bb)))
                           (snd cb)))
                   data)) as (doc' & Hw' & Hl').
  exists doc'. split; [exact Hw|]. split; [exact Hl|]. split; [exact Hw'|].
  rewrite Hl'. f_equal.
  apply map_id_Forall, Forall_forall. intros cb Hcb.
  apply in_map_iff in Hcb. destruct Hcb as ([case benchmarks] & <- & _).
  cbn [fst snd]. f_equal.
  apply map_id_Forall, Forall_forall. intros bb Hbb.
  apply in_map_iff in Hbb. destruct Hbb as ([bench r] & <- & _).
  reflexivity.
Qed.

(** ** Interpolation in exact arithmetic *)










(** ** The inverse-t table in exact arithmetic *)







(** ** The significance engine in exact arithmetic *)
















(** ** The order of [binary64], totality *)

Lemma SFcompare_antisym : forall x y,
  SFcompare y x = match SFcompare x y with
                  | Some c => Some (CompOpp c)
                  | None => None
                  end.
Proof.
  intros [sx|sx| |sx mx ex] [sy|sy| |sy my ey]; simpl; try reflexivity;
    try (destruct sx; reflexivity); try (destruct sy; reflexivity);
    try (destruct sx, sy; reflexivity).
  change PosDef.Pos.compare_cont with Pos.compare_cont.
  rewrite !Pos.compare_cont_spec. simpl.
  rewrite (Z.compare_antisym ex ey), (Pos.compare_antisym mx my).
  destruct sx, sy; try reflexivity;
    destruct (ex ?= ey)%Z; simpl; try reflexivity;
    destruct (mx ?= my)%positive; reflexivity.
Qed.

Lemma is_nan_SFcompare : forall x : float,
  PrimFloat.is_nan x = false ->
  forall y : float, PrimFloat.is_nan y = false ->
  SFcompare (Prim2SF x) (Prim2SF y) <> None.
Proof.
  intros x Hx y Hy. unfold PrimFloat.is_nan in *.
  rewrite eqb_spec in Hx, Hy. unfold SFeqb in *.
  destruct (Prim2SF x) as [sx|sx| |sx mx ex]; try discriminate Hx;
    destruct (Prim2SF y) as [sy|sy| |sy my ey]; try discriminate Hy;
    simpl; try discriminate; destruct sx; discriminate.
Qed.

Lemma is_nan_compare_false : forall x y : float,
  PrimFloat.is_nan x = true ->
  (x <? y)%float = false /\ (y <? x)%float = false /\
  (x <=? y)%float = false /\ (y <=? x)%float = false.
Proof.
  intros x y Hx. unfold PrimFloat.is_nan in Hx.
  rewrite eqb_spec in Hx. rewrite !ltb_spec, !leb_spec.
  unfold SFeqb, SFltb, SFleb in *.
  assert (E : Prim2SF x = S754_nan).
  { destruct (Prim2SF x) as [sx|sx| |sx mx ex]; try reflexivity;
      simpl in Hx; try discriminate Hx.
    - destruct sx; discriminate Hx.
    - change PosDef.Pos.compare_cont with Pos.compare_cont in Hx.
      rewrite Z.compare_refl, Pos.compare_cont_spec, Pos.compare_refl in Hx.
      destruct sx; discriminate Hx. }
  rewrite E. simpl. destruct (Prim2SF y); auto.
Qed.

Lemma ltb_true_not_nan : forall x y : float,
  (x <? y)%float = true ->
  PrimFloat.is_nan x = false /\ PrimFloat.is_nan y = false.
Proof.
  intros x y H.
  destruct (PrimFloat.is_nan x) eqn:Ex.
  { destruct (is_nan_compare_false x y Ex) as (E & _). congruence. }
  destruct (PrimFloat.is_nan y) eqn:Ey.
  { destruct (is_nan_compare_false y x Ey) as (_ & E & _). congruence. }
  auto.
Qed.

(** Of two numbers, one is at most the other. *)
Lemma ltb_false_leb : forall x y : float,
  PrimFloat.is_nan x = false -> PrimFloat.is_nan y = false ->
  (x <? y)%float = false -> (y <=? x)%float = true.
Proof.
  intros x y Hx Hy. rewrite ltb_spec, leb_spec. unfold SFltb, SFleb.
  pose proof (is_nan_SFcompare x Hx y Hy) as Hc.
  rewrite (SFcompare_antisym (Prim2SF x) (Prim2SF y)).
  destruct (SFcompare (Prim2SF x) (Prim2SF y)) as [[]|];
    simpl; congruence.
Qed.

Lemma leb_false_leb : forall x y : float,
  PrimFloat.is_nan x = false -> PrimFloat.is_nan y = false ->
  (x <=? y)%float = false -> (y <=? x)%float = true.
Proof.
  intros x y Hx Hy. rewrite !leb_spec. unfold SFleb.
  pose proof (is_nan_SFcompare x Hx y Hy) as Hc.
  rewrite (SFcompare_antisym (Prim2SF x) (Prim2SF y)).
  destruct (SFcompare (Prim2SF x) (Prim2SF y)) as [[]|];
    simpl; congruence.
Qed.

(** ** The F table on [binary64], every statistic *)

Lemma linear_regression_defined :
  forall (A : Arith) (p1 p2 : num * num) (x x' y : num),
    linear_regression p1 p2 x = Ok y ->
    exists y' : num, linear_regression p1 p2 x' = Ok y'.
Proof.
  intros A p1 p2 x x' y H. unfold linear_regression in *.
  destruct (py_div _ _); cbn [bind] in *; [eauto|discriminate H].
Qed.

Lemma F_TABLE_rows_sloped :
  forallb row_brackets_sloped (F_TABLE (A := binary64)) = true.
Proof. vm_compute. reflexivity. Qed.

(** On [binary64], on every row of the F table: [fcdf] returns for every
    F statistic that is a number, and raises its own exception for a NaN, for
    which no comparison holds. *)
Theorem fcdf_binary64_total : forall (f : float) (freedom : Z),
  dict_mem Z.eqb (F_TABLE (A := binary64)) freedom = true ->
  (PrimFloat.is_nan f = false ->
   exists p : float, fcdf (A := binary64) f freedom = Ok p) /\
  (PrimFloat.is_nan f = true ->
   fcdf (A := binary64) f freedom
   = Raise (Exception "Couldn't find an alpha value for F.")).
Proof.
  intros f freedom Hm.
  destruct (dict_mem_find _ _ _ _ _ Hm) as [table H].
  destruct (F_TABLE_row_shape _ _ H) as (t0 & t1 & t2 & t3 & -> & H32 & H21 & H10).
  assert (Hget : dict_get Z.eqb (F_TABLE (A := binary64)) freedom
                 = Ok [t0; t1; t2; t3])
    by (unfold dict_get; now rewrite H).
  pose proof F_TABLE_rows_sloped as D.
  rewrite forallb_forall in D. specialize (D _ (dict_find_In _ _ _ _ H)).
  unfold row_brackets_sloped in D. cbn [snd] in D.
  rewrite F_TABLE_ALPHA_binary64 in D. cbn [forallb fst snd] in D.
  apply andb_prop in D as [D0 D]. apply andb_prop in D as [D1 D].
  apply andb_prop in D as [D2 _].
  match type of D0 with
  | match ?c with _ => _ end = _ =>
      destruct c as [y0|] eqn:L0; [clear D0|discriminate D0]
  end.
  match type of D1 with
  | match ?c with _ => _ end = _ =>
      destruct c as [y1|] eqn:L1; [clear D1|discriminate D1]
  end.
  match type of D2 with
  | match ?c with _ => _ end = _ =>
      destruct c as [y2|] eqn:L2; [clear D2|discriminate D2]
  end.
  unfold fcdf. rewrite Hget. cbn [bind item nth_error item_last List.length
    Nat.sub seq fcdf_loop Nat.add].
  rewrite F_TABLE_ALPHA_binary64. cbn [nth_error].
  change (@nltb binary64) with PrimFloat.ltb.
  change (@nleb binary64) with PrimFloat.leb.
  destruct (ltb_true_not_nan _ _ H10) as [N1 N0].
  destruct (ltb_true_not_nan _ _ H32) as [N3 N2].
  split.
  - intros Nf.
    destruct (t0 <? f)%float eqn:C0; [eauto|].
    destruct (f <? t3)%float eqn:C3; [eauto|].
    rewrite (ltb_false_leb t0 f N0 Nf C0).
    destruct (t1 <=? f)%float eqn:C1.
    { exact (linear_regression_defined binary64 _ _ _ f _ L0). }
    rewrite (leb_false_leb t1 f N1 Nf C1).
    destruct (t2 <=? f)%float eqn:C2.
    { exact (linear_regression_defined binary64 _ _ _ f _ L1). }
    rewrite (leb_false_leb t2 f N2 Nf C2).
    rewrite (ltb_false_leb f t3 Nf N3 C3).
    exact (linear_regression_defined binary64 _ _ _ f _ L2).
  - intros Nf.
    destruct (is_nan_compare_false f t0 Nf) as (_ & -> & -> & _).
    destruct (is_nan_compare_false f t1 Nf) as (_ & _ & -> & _).
    destruct (is_nan_compare_false f t2 Nf) as (_ & _ & -> & _).
    destruct (is_nan_compare_false f t3 Nf) as (-> & _).
    reflexivity.
Qed.

Lemma fcdf_binary64_total_witness :
  (exists p : float, fcdf (A := binary64) 2.0%float 60 = Ok p) /\
  fcdf (A := binary64) nan 60
  = Raise (Exception "Couldn't find an alpha value for F.").
Proof.
  split.
  - apply (proj1 (fcdf_binary64_total 2.0%float 60 eq_refl)). reflexivity.
  - apply (proj2 (fcdf_binary64_total nan 60 eq_refl)). reflexivity.
Defined.

(** ** The inverse-t table on [binary64], every degrees of freedom *)

Lemma leb_true_not_nan : forall x y : float,
  (x <=? y)%float = true ->
  PrimFloat.is_nan x = false /\ PrimFloat.is_nan y = false.
Proof.
  intros x y H.
  destruct (PrimFloat.is_nan x) eqn:Ex.
  { destruct (is_nan_compare_false x y Ex) as (_ & _ & E & _). congruence. }
  destruct (PrimFloat.is_nan y) eqn:Ey.
  { destruct (is_nan_compare_false y x Ey) as (_ & _ & _ & E). congruence. }
  auto.
Qed.

Lemma SFcompare_lt_eq_trans : forall x y z,
  SFcompare x y = Some Lt -> SFcompare y z = Some Eq -> SFcompare x z = Some Lt.
Proof.
  intros [sx|sx| |sx mx ex] [sy|sy| |sy my ey] [sz|sz| |sz mz ez]; simpl;
    try discriminate; try (destruct sx, sy, sz; simpl; congruence).
  all: try (destruct sx, sy; try discriminate; destruct sz;
            try reflexivity; discriminate).
  change PosDef.Pos.compare_cont with Pos.compare_cont.
  rewrite !Pos.compare_cont_spec.
  destruct sx, sy, sz; try discriminate; try reflexivity;
    intros H1 H2; injection H1 as H1; injection H2 as H2; f_equal;
    destruct (Z.compare_spec ex ey), (Z.compare_spec ey ez),
             (Z.compare_spec ex ez);
    try discriminate; try reflexivity; try lia;
    destruct (Pos.compare_spec mx my), (Pos.compare_spec my mz),
             (Pos.compare_spec mx mz);
    simpl in *; try discriminate; try reflexivity; try lia.
Qed.

(** Below [x], below every [y] above [x]. *)
Lemma leb_false_below : forall x y z : float,
  PrimFloat.is_nan z = false ->
  (x <=? z)%float = false -> (x <? y)%float = true ->
  (y <=? z)%float = false.
Proof.
  intros x y z Nz Hxz Hxy.
  destruct (ltb_true_not_nan _ _ Hxy) as [Nx Ny].
  pose proof (is_nan_SFcompare x Nx z Nz) as Cxz.
  revert Hxz Hxy. rewrite !leb_spec, ltb_spec. unfold SFleb, SFltb.
  destruct (SFcompare (Prim2SF x) (Prim2SF z)) as [[]|] eqn:E1;
    try discriminate; try congruence. intros _.
  destruct (SFcompare (Prim2SF x) (Prim2SF y)) as [[]|] eqn:E2;
    try discriminate. intros _.
  pose proof (SFcompare_antisym (Prim2SF x) (Prim2SF z)) as A1.
  rewrite E1 in A1. simpl in A1.
  destruct (SFcompare (Prim2SF y) (Prim2SF z)) as [[]|] eqn:E3;
    try reflexivity; exfalso; apply (@SFcompare_lt_irrefl (Prim2SF z));
    (eapply SFcompare_lt_trans; [exact A1|]).
  - exact (SFcompare_lt_eq_trans _ _ _ E2 E3).
  - exact (SFcompare_lt_trans _ _ _ E2 E3).
Qed.

(** Above [y], above every [x] below [y]. *)
Lemma leb_false_above : forall x y z : float,
  PrimFloat.is_nan z = false ->
  (z <=? y)%float = false -> (x <? y)%float = true ->
  (z <=? x)%float = false.
Proof.
  intros x y z Nz Hzy Hxy.
  destruct (ltb_true_not_nan _ _ Hxy) as [Nx Ny].
  pose proof (is_nan_SFcompare z Nz y Ny) as Czy.
  revert Hzy Hxy. rewrite !leb_spec, ltb_spec. unfold SFleb, SFltb.
  destruct (SFcompare (Prim2SF z) (Prim2SF y)) as [[]|] eqn:E1;
    try discriminate; try congruence. intros _.
  destruct (SFcompare (Prim2SF x) (Prim2SF y)) as [[]|] eqn:E2;
    try discriminate. intros _.
  pose proof (SFcompare_antisym (Prim2SF z) (Prim2SF y)) as A1.
  rewrite E1 in A1. simpl in A1.
  pose proof (SFcompare_lt_trans _ _ _ E2 A1) as E3.
  rewrite (SFcompare_antisym (Prim2SF x) (Prim2SF z)), E3. reflexivity.
Qed.

Lemma INV_T_TABLE_rows_sloped :
  forallb t_row_sloped (INV_T_TABLE (A := binary64)) = true.
Proof. vm_compute. reflexivity. Qed.

Lemma INV_T_TABLE_row_shape : forall (a : float) (table : list float),
  dict_find (neqb (Arith := binary64)) (INV_T_TABLE (A := binary64)) a
  = Some table ->
  t_row_sloped (a, table) = true.
Proof.
  intros a table H.
  destruct (dict_find_In_key _ _ _ _ _ _ H) as (k' & Hin & _).
  pose proof INV_T_TABLE_rows_sloped as D. rewrite forallb_forall in D.
  exact (D _ Hin).
Qed.

Ltac defined_line D L :=
  match type of D with
  | match ?c with _ => _ end = _ =>
      destruct c eqn:L; [clear D|discriminate D]
  end.

(** On [binary64], at every level that is a key of the inverse-t table:
    [invt] returns when the degrees of freedom are from 8 to 120 and raises
    its own exception otherwise, a NaN included. *)
Theorem invt_binary64_domain : forall (a freedom : float),
  dict_mem (neqb (Arith := binary64)) (INV_T_TABLE (A := binary64)) a = true ->
  ((8 <=? freedom)%float && (freedom <=? 120)%float = true ->
   exists tc : float, invt (A := binary64) a freedom = Ok tc) /\
  ((8 <=? freedom)%float && (freedom <=? 120)%float = false ->
   invt (A := binary64) a freedom
   = Raise (Exception "Couldn't find a t-value for freedom.")).
Proof.
  intros a fr Hm.
  destruct (dict_mem_find _ _ _ _ _ Hm) as [table H].
  pose proof (INV_T_TABLE_row_shape a table H) as D.
  unfold t_row_sloped in D. cbn [snd] in D.
  destruct table as [|t0 [|t1 [|t2 [|t3 [|t4 [|t5 [|]]]]]]]; try discriminate D.
  cbn [forallb fst snd] in D.
  apply andb_prop in D as [D0 D]. apply andb_prop in D as [D1 D].
  apply andb_prop in D as [D2 D]. apply andb_prop in D as [D3 D].
  apply andb_prop in D as [D4 _].
  defined_line D0 L0. defined_line D1 L1. defined_line D2 L2.
  defined_line D3 L3. defined_line D4 L4.
  unfold invt, dict_get. rewrite H.
  cbn [bind item nth_error List.length Nat.sub seq invt_loop Nat.add
       INV_T_TABLE_FREEDOM].
  change (@nleb binary64) with PrimFloat.leb.
  change (@of_int binary64 8) with 8%float.
  change (@of_int binary64 18) with 18%float.
  change (@of_int binary64 25) with 25%float.
  change (@of_int binary64 30) with 30%float.
  change (@of_int binary64 60) with 60%float.
  change (@of_int binary64 120) with 120%float.
  split.
  - intros Hb. apply andb_prop in Hb as [H8 H120].
    destruct (leb_true_not_nan _ _ H8) as [_ Nf].
    rewrite H8.
    destruct (fr <=? 18)%float eqn:C1;
      [exact (linear_regression_defined binary64 _ _ _ fr _ L0)|].
    rewrite (leb_false_leb fr 18%float Nf eq_refl C1).
    destruct (fr <=? 25)%float eqn:C2;
      [exact (linear_regression_defined binary64 _ _ _ fr _ L1)|].
    rewrite (leb_false_leb fr 25%float Nf eq_refl C2).
    destruct (fr <=? 30)%float eqn:C3;
      [exact (linear_regression_defined binary64 _ _ _ fr _ L2)|].
    rewrite (leb_false_leb fr 30%float Nf eq_refl C3).
    destruct (fr <=? 60)%float eqn:C4;
      [exact (linear_regression_defined binary64 _ _ _ fr _ L3)|].
    rewrite (leb_false_leb fr 60%float Nf eq_refl C4).
    rewrite H120.
    exact (linear_regression_defined binary64 _ _ _ fr _ L4).
  - intros Hb.
    destruct (PrimFloat.is_nan fr) eqn:Nf.
    { destruct (is_nan_compare_false fr 8%float Nf) as (_ & _ & _ & ->).
      destruct (is_nan_compare_false fr 18%float Nf) as (_ & _ & _ & ->).
      destruct (is_nan_compare_false fr 25%float Nf) as (_ & _ & _ & ->).
      destruct (is_nan_compare_false fr 30%float Nf) as (_ & _ & _ & ->).
      destruct (is_nan_compare_false fr 60%float Nf) as (_ & _ & _ & ->).
      reflexivity. }
    destruct (8 <=? fr)%float eqn:H8.
    + simpl in Hb.
      rewrite (leb_false_above 18%float 120%float fr Nf Hb eq_refl).
      rewrite (leb_false_above 25%float 120%float fr Nf Hb eq_refl).
      rewrite (leb_false_above 30%float 120%float fr Nf Hb eq_refl).
      rewrite (leb_false_above 60%float 120%float fr Nf Hb eq_refl).
      rewrite Hb.
      destruct (18 <=? fr)%float, (25 <=? fr)%float, (30 <=? fr)%float,
               (60 <=? fr)%float; reflexivity.
    + rewrite (leb_false_below 8%float 18%float fr Nf H8 eq_refl).
      rewrite (leb_false_below 8%float 25%float fr Nf H8 eq_refl).
      rewrite (leb_false_below 8%float 30%float fr Nf H8 eq_refl).
      rewrite (leb_false_below 8%float 60%float fr Nf H8 eq_refl).
      reflexivity.
Qed.

Lemma invt_binary64_domain_witness :
  (exists tc : float, invt (A := binary64) 0.05%float 100.0%float = Ok tc) /\
  invt (A := binary64) 0.05%float 223.0%float
  = Raise (Exception "Couldn't find a t-value for freedom.").
Proof.
  split.
  - apply (proj1 (invt_binary64_domain 0.05%float 100.0%float eq_refl)).
    reflexivity.
  - apply (proj2 (invt_binary64_domain 0.05%float 223.0%float eq_refl)).
    reflexivity.
Defined.

(** ** The direction of a comparison in exact arithmetic *)














(** ** A run compared with itself, in exact arithmetic *)





(** ** Reports *)

Lemma io_for_count :
  forall (T : Type) (f : T -> io unit) (size : T -> nat) (l : list T),
    (forall x, In x l -> snd (f x) = Ok tt /\ List.length (fst (f x)) = size x) ->
    snd (io_for f l) = Ok tt /\
    List.length (fst (io_for f l)) = list_sum (map size l).
Proof.
  intros T f size. induction l as [|x l IH]; intros H; [split; reflexivity|].
  destruct (H x (or_introl eq_refl)) as [Hx Hn].
  destruct IH as [Hl Hm]; [intros; apply H; now right|].
  cbn [io_for]. unfold io_bind. rewrite Hx. cbn [fst snd map list_sum].
  split; [exact Hl|]. rewrite length_app, Hn, Hm. reflexivity.
Qed.

Section ReportFacts.
Context {A : Arith}.
Variable format : num -> string -> string.

Lemma print_query_lines : forall (i : nat) (q : list (string * string)),
  dict_mem String.eqb q "sql" && dict_mem String.eqb q "time" = true ->
  snd (print_query (i, q)) = Ok tt /\
  List.length (fst (print_query (i, q))) = 3%nat.
Proof.
  intros i q H. apply andb_prop in H as [Hs Ht].
  destruct (dict_mem_find _ _ _ _ _ Hs) as [sql Es].
  destruct (dict_mem_find _ _ _ _ _ Ht) as [time Et].
  unfold print_query, io_bind, io_eval, print, dict_get. cbn [fst snd].
  rewrite Es. cbn [fst snd]. rewrite Et. split; reflexivity.
Qed.

Lemma io_for_print_query_lines :
  forall (l : list (list (string * string))) (i : nat),
    forallb (fun q => dict_mem String.eqb q "sql"
                      && dict_mem String.eqb q "time") l = true ->
    snd (io_for print_query (enumerate_from i l)) = Ok tt /\
    List.length (fst (io_for print_query (enumerate_from i l)))
    = (3 * List.length l)%nat.
Proof.
  induction l as [|q l IH]; intros i H; [split; reflexivity|].
  cbn [forallb] in H. apply andb_prop in H as [Hq Hl].
  destruct (print_query_lines i q Hq) as [Hx Hn].
  destruct (IH (S i) Hl) as [Hr Hm].
  cbn [enumerate_from io_for]. unfold io_bind. rewrite Hx.
  cbn [fst snd]. split; [exact Hr|].
  rewrite length_app, Hn, Hm. cbn [List.length]. lia.
Qed.

Lemma pretty_print_returns : forall v : ResultType,
  exists s : string, pretty_print v = Ok s.
Proof. intros []; eexists; reflexivity. Qed.

Lemma print_bench_lines : forall (show_queries : bool) (bb : string * BenchmarkResult),
  (show_queries = true ->
   forallb (fun q => dict_mem String.eqb q "sql"
                     && dict_mem String.eqb q "time")
           (captured_queries (queries (snd bb))) = true) ->
  snd (print_bench format show_queries bb) = Ok tt /\
  List.length (fst (print_bench format show_queries bb))
  = bench_lines show_queries (snd bb).
Proof.
  intros show_queries [bench r] H. cbn [snd] in H.
  unfold print_bench, bench_lines. cbn [fst snd].
  assert (Hv : exists s, (v <- BenchmarkResult_result_type r ;; pretty_print v)
                         = Ok s).
  { unfold BenchmarkResult_result_type.
    destruct (Queries_result_type (queries r)), (Timing_result_type (timing r));
      eexists; reflexivity. }
  destruct Hv as [s Hs]. rewrite Hs.
  destruct (pretty_print_returns (Queries_result_type (queries r))) as [sq Hq].
  destruct (pretty_print_returns (Timing_result_type (timing r))) as [st Ht].
  rewrite Hq, Ht.
  destruct show_queries.
  - destruct (io_for_print_query_lines (captured_queries (queries r)) 0
                (H eq_refl)) as [Hr Hm].
    unfold io_bind, io_eval, print. cbn [fst snd]. rewrite Hr. cbn [fst snd].
    split; [reflexivity|].
    rewrite !length_app. cbn [List.length]. rewrite Hm. lia.
  - split; reflexivity.
Qed.

End ReportFacts.

Lemma io_for_outcome :
  forall (T : Type) (f : T -> io unit) (ok : T -> bool) (e : exn) (l : list T),
    (forall x, In x l -> snd (f x) = if ok x then Ok tt else Raise e) ->
    snd (io_for f l) = if forallb ok l then Ok tt else Raise e.
Proof.
  intros T f ok e. induction l as [|x l IH]; intros H; [reflexivity|].
  cbn [io_for forallb]. unfold io_bind.
  rewrite (H x (or_introl eq_refl)).
  destruct (ok x); cbn [snd andb]; [|reflexivity].
  apply IH. intros; apply H; now right.
Qed.

Lemma print_query_outcome :
  forall (l : list (list (string * string))) (i : nat),
    snd (io_for print_query (enumerate_from i l))
    = if forallb (fun q => dict_mem String.eqb q "sql"
                           && dict_mem String.eqb q "time") l
      then Ok tt else Raise KeyError.
Proof.
  induction l as [|q l IH]; intros i; [reflexivity|].
  cbn [enumerate_from io_for forallb]. unfold io_bind at 1.
  unfold print_query at 1, io_bind, io_eval, print, dict_get, dict_mem.
  cbn [fst snd].
  destruct (dict_find String.eqb q "sql") as [sql|]; cbn [fst snd andb];
    [|reflexivity].
  destruct (dict_find String.eqb q "time") as [time|]; cbn [fst snd andb];
    [|reflexivity].
  apply IH.
Qed.

Section ReportOutcome.
Context {A : Arith}.
Variable format : num -> string -> string.

Lemma print_bench_outcome :
  forall (show_queries : bool) (bb : string * BenchmarkResult),
    snd (print_bench format show_queries bb)
    = if negb show_queries
         || forallb (fun q => dict_mem String.eqb q "sql"
                              && dict_mem String.eqb q "time")
                    (captured_queries (queries (snd bb)))
      then Ok tt else Raise KeyError.
Proof.
  intros show_queries [bench r].
  unfold print_bench. cbn [fst snd].
  assert (Hv : exists s, (v <- BenchmarkResult_result_type r ;; pretty_print v)
                         = Ok s).
  { unfold BenchmarkResult_result_type.
    destruct (Queries_result_type (queries r)), (Timing_result_type (timing r));
      eexists; reflexivity. }
  destruct Hv as [s Hs]. rewrite Hs.
  destruct (pretty_print_returns (Queries_result_type (queries r))) as [sq Hq].
  destruct (pretty_print_returns (Timing_result_type (timing r))) as [st Ht].
  rewrite Hq, Ht.
  destruct show_queries; [|reflexivity].
  unfold io_bind, io_eval, print. cbn [fst snd negb orb].
  rewrite print_query_outcome.
  destruct (forallb _ (captured_queries (queries r))); reflexivity.
Qed.

Lemma print_results_outcome :
  forall (results : Results) (show_queries : bool),
    snd (print_results format results show_queries)
    = if negb show_queries || queries_printable results
      then Ok tt else Raise KeyError.
Proof.
  intros results show_queries.
  unfold print_results, io_bind, print. cbn [fst snd].
  rewrite (io_for_outcome _ (print_case format show_queries)
             (fun cb => forallb
                          (fun bb => negb show_queries
                                     || forallb (fun q => dict_mem String.eqb q "sql"
                                                          && dict_mem String.eqb q "time")
                                                (captured_queries (queries (snd bb))))
                          (snd cb))
             KeyError).
  - destruct show_queries; cbn [negb orb]; [reflexivity|].
    replace (forallb _ results) with true; [reflexivity|].
    symmetry. apply forallb_forall. intros cb _.
    apply forallb_forall. reflexivity.
  - intros [case benchmarks] _. unfold print_case, io_bind, print.
    cbn [fst snd].
    apply io_for_outcome. intros bb _. apply print_bench_outcome.
Qed.

End ReportOutcome.

(** [print_results] raises only for a captured query without an ["sql"]
    or a ["time"] key, with [KeyError], and only when the queries are shown;
    its first line is the heading; and when it returns it has printed one
    line for the heading, one for each case, three for each benchmark and,
    when the queries are shown, three for each captured query. *)
Theorem print_results_report :
  forall (A : Arith) (format : num -> string -> string) (results : Results)
         (show_queries : bool),
    snd (print_results format results show_queries)
    = (if negb show_queries || queries_printable results
       then Ok tt else Raise KeyError) /\
    hd_error (fst (print_results format results show_queries))
    = Some "Results:" /\
    (negb show_queries || queries_printable results = true ->
     List.length (fst (print_results format results show_queries))
     = report_lines results show_queries).
Proof.
  intros A format results show_queries.
  split; [apply print_results_outcome|]. split; [reflexivity|].
  intros H.
  assert (H' : show_queries = true -> queries_printable results = true).
  { intros ->. exact H. }
  clear H.
  assert (Hcases :
            snd (io_for (print_case format show_queries) results) = Ok tt /\
            List.length (fst (io_for (print_case format show_queries) results))
            = list_sum
                (map (fun cb : string * list (string * BenchmarkResult) =>
                        (1 + list_sum
                               (map (fun bb => bench_lines show_queries (snd bb))
                                    (snd cb)))%nat)
                     results)).
  { apply io_for_count. intros [case benchmarks] Hin.
    assert (Hb : snd (io_for (print_bench format show_queries) benchmarks)
                 = Ok tt /\
                 List.length
                   (fst (io_for (print_bench format show_queries) benchmarks))
                 = list_sum (map (fun bb => bench_lines show_queries (snd bb))
                                 benchmarks)).
    { apply io_for_count. intros bb Hbb. apply print_bench_lines.
      intros Hs. specialize (H' Hs). unfold queries_printable in H'.
      rewrite forallb_forall in H'. specialize (H' _ Hin). cbn [snd] in H'.
      rewrite forallb_forall in H'. exact (H' _ Hbb). }
    destruct Hb as [Hr Hm].
    unfold print_case, io_bind, print. cbn [fst snd].
    split; [exact Hr|]. cbn [List.length app]. now rewrite Hm. }
  destruct Hcases as [Hr Hm].
  unfold print_results, report_lines, io_bind, print. cbn [fst snd].
  cbn [List.length app]. now rewrite Hm.
Qed.

(** ** The verdict of the cost in exact arithmetic *)




(** ** The warm-up *)


(** * The comparison on either arithmetic *)

(** ** The branches of the comparison *)















(** ** Rounding to binary64 keeps a positive number away from zero *)














(** ** The operations of binary64 on positive numbers *)











(** ** Identical samples on binary64 *)

(** The tables do not depend on the C library. *)
Lemma fcdf_libm : forall (pow2 : float -> float) (f : float) (freedom : Z),
  fcdf (A := binary64_libm pow2) f freedom = fcdf (A := binary64) f freedom.
Proof. reflexivity. Qed.

Lemma invt_loop_libm :
  forall (pow2 : float -> float) (table : list float) (fr : float)
         (idx : list nat),
    invt_loop (A := binary64_libm pow2) table fr idx
    = invt_loop (A := binary64) table fr idx.
Proof. reflexivity. Qed.














